(** * xtra-equip-server: the REST routes, their middleware and their queries

    A shallow embedding of the server script [index.js], in its full
    revision (categories, products, users and token routes), and of the
    document-store operations its handlers call.  The two earlier revisions
    kept with it have the same [verifyToken]; they apply [limit]
    unconditionally in GET /categories and have no product routes, and one
    of them answers GET /categories/:id with an empty list.

    - A document is a finite map from field names to scalar JSON values
      ([gmap string value]); nested documents, arrays, dotted paths and
      [$]-operators inside request bodies are outside the model.
    - A collection is a list of documents in natural (insertion) order.
    - Path and query-string parameters are strings; a query-string
      parameter may be absent.
    - Express's [next()] is a continuation; a handler whose promise rejects
      sends no response, which is the outcome [Crashed].
    - A request is served from its first step to its last before the next
      one starts: two handlers interleaved at their [await]s are outside the
      model.
    - The token library, the [ObjectId] constructor and the regular
      expression engine of the store are external: they are variables of
      the section [Server].  The engine [pcre] is a concrete instance for a
      fragment of the regular expression syntax. *)

From Stdlib Require Import ZArith Ascii String List Bool Lia.
From stdpp Require Import base option list strings gmap fin_maps pretty.
Import ListNotations.

Open Scope string_scope.
Open Scope Z_scope.

(** ** JavaScript values and documents *)

(** An ObjectId is represented by its 24 digit hexadecimal string. *)
Definition oid := string.

Inductive value :=
| VNull
| VBool (b : bool)
| VNum (n : Z)
| VStr (s : string)
| VId (o : oid).

#[global] Instance value_eq_dec : EqDecision value.
Proof. solve_decision. Defined.

Abbreviation document := (gmap string value).

(** JavaScript truthiness of [x?.field]: a missing field is [undefined]. *)
Definition truthy (v : option value) : bool :=
  match v with
  | None | Some VNull => false
  | Some (VBool b) => b
  | Some (VNum n) => negb (n =? 0)
  | Some (VStr s) => negb (String.eqb s "")
  | Some (VId _) => true
  end.

(** [x?.field === "lit"] *)
Definition field_is (d : option document) (k lit : string) : bool :=
  match d with
  | Some doc => bool_decide (doc !! k = Some (VStr lit))
  | None => false
  end.

(** A query-string parameter reaches a filter as a string, and an absent one
    ([undefined]) is serialised by the driver as [null]. *)
Definition param (p : option string) : value :=
  match p with
  | Some s => VStr s
  | None => VNull
  end.

(** Same for a field read off the request body. *)
Definition body_field (d : document) (k : string) : value :=
  match d !! k with
  | Some v => v
  | None => VNull
  end.

(** ** Strings *)

Fixpoint starts_with (p s : string) : bool :=
  match p, s with
  | EmptyString, _ => true
  | String a p', String b s' => Ascii.eqb a b && starts_with p' s'
  | String _ _, EmptyString => false
  end.

(** [s.includes(p)] *)
Fixpoint includes (p s : string) : bool :=
  starts_with p s ||
  match s with
  | EmptyString => false
  | String _ s' => includes p s'
  end.

(** [s.split(" ")], accumulating the current piece in reverse. *)
Fixpoint split_acc (cur : string) (s : string) : list string :=
  match s with
  | EmptyString => [cur]
  | String c s' =>
      if Ascii.eqb c " "%char then cur :: split_acc "" s'
      else split_acc (cur +:+ String c "") s'
  end.

Definition split_space (s : string) : list string := split_acc "" s.

(** [authHeader.split(" ").pop()]: the last piece. *)
Definition last_piece (s : string) : string := List.last (split_space s) "".

(** ** Numbers read from strings

    A string is the sequence of bytes of its UTF-8 encoding. *)

(** The white space of one byte: TAB, LF, VT, FF, CR and the space. *)
Definition is_space (c : ascii) : bool :=
  let n := nat_of_ascii c in
  ((9 <=? n) && (n <=? 13))%nat || (n =? 32)%nat.

(** The third byte of the white space that starts with the bytes [n1 n2]:
    U+1680, U+2000 to U+200A, U+2028, U+2029, U+202F, U+205F, U+3000 and
    U+FEFF. *)
Definition space_tail (n1 n2 n3 : nat) : bool :=
  (((n1 =? 225) && (n2 =? 154) && (n3 =? 128))
   || ((n1 =? 226) && (n2 =? 128)
       && (((128 <=? n3) && (n3 <=? 138)) || (n3 =? 168) || (n3 =? 169) || (n3 =? 175)))
   || ((n1 =? 226) && (n2 =? 129) && (n3 =? 159))
   || ((n1 =? 227) && (n2 =? 128) && (n3 =? 128))
   || ((n1 =? 239) && (n2 =? 187) && (n3 =? 191)))%nat.

(** The number of bytes of the white space or line terminator at the head
    of a string, and 0 when there is none there.  U+00A0 takes two bytes. *)
Definition space_width (s : string) : nat :=
  match s with
  | String c1 rest =>
      if is_space c1 then 1%nat
      else
        match rest with
        | String c2 rest' =>
            if ((nat_of_ascii c1 =? 194) && (nat_of_ascii c2 =? 160))%nat then 2%nat
            else
              match rest' with
              | String c3 _ =>
                  if space_tail (nat_of_ascii c1) (nat_of_ascii c2) (nat_of_ascii c3)
                  then 3%nat else 0%nat
              | EmptyString => 0%nat
              end
        | EmptyString => 0%nat
        end
  | EmptyString => 0%nat
  end.

Fixpoint drop_bytes (n : nat) (s : string) : string :=
  match n, s with
  | S n', String _ s' => drop_bytes n' s'
  | _, _ => s
  end.

Fixpoint skip_spaces_within (fuel : nat) (s : string) : string :=
  match fuel with
  | O => s
  | S fuel' =>
      match space_width s with
      | O => s
      | w => skip_spaces_within fuel' (drop_bytes w s)
      end
  end.

(** The string without its leading white space. *)
Definition skip_spaces (s : string) : string :=
  skip_spaces_within (String.length s) s.

(** The value of a digit in the given radix, if it is one. *)
Definition digit_val (radix : Z) (c : ascii) : option Z :=
  let n := Z.of_nat (nat_of_ascii c) in
  let v := if (48 <=? n) && (n <=? 57) then n - 48
           else if (97 <=? n) && (n <=? 122) then n - 87
           else if (65 <=? n) && (n <=? 90) then n - 55
           else radix in
  if v <? radix then Some v else None.

(** The longest prefix of digits, as a number; [None] when it is empty. *)
Fixpoint digits_from (radix : Z) (acc : option Z) (s : string) : option Z * string :=
  match s with
  | String c s' =>
      match digit_val radix c with
      | Some v => digits_from radix (Some (radix * default 0 acc + v)) s'
      | None => (acc, s)
      end
  | EmptyString => (acc, s)
  end.

Definition strip_sign (s : string) : Z * string :=
  match s with
  | String "-" s' => (-1, s')
  | String "+" s' => (1, s')
  | _ => (1, s)
  end.

Definition strip_hex (s : string) : Z * string :=
  match s with
  | String "0" (String "x" s') | String "0" (String "X" s') => (16, s')
  | _ => (10, s)
  end.

(** The numbers [parseInt] can answer: [NaN], an integer that is a double,
    or an infinity. *)
Inductive number :=
| NaN
| Int (z : Z)
| Infinity (negative : bool).

(** The double nearest to an integer, ties going to the even mantissa:
    integers below 2^53 in absolute value are doubles; above, the 53 leading
    bits are kept and rounded, and what rounds to 2^1024 is infinite. *)
Definition to_double (m : Z) : number :=
  let a := Z.abs m in
  if a <? 2 ^ 53 then Int m
  else
    let shift := Z.log2 a - 52 in
    let q := Z.shiftr a shift in
    let r := a - Z.shiftl q shift in
    let half := Z.shiftl 1 (shift - 1) in
    let q' := if (half <? r) || ((r =? half) && Z.odd q) then q + 1 else q in
    let v := Z.shiftl q' shift in
    if 2 ^ 1024 <=? v then Infinity (m <? 0) else Int (Z.sgn m * v).

(** [parseInt(s)] with no radix argument: leading white space, a sign, a
    hexadecimal prefix, then the longest run of digits. *)
Definition parseInt (s : string) : number :=
  let '(sign, s1) := strip_sign (skip_spaces s) in
  let '(radix, s2) := strip_hex s1 in
  match fst (digits_from radix None s2) with
  | Some n => to_double (sign * n)
  | None => NaN
  end.

(** [String(x)] of a possibly absent query parameter. *)
Definition to_string (p : option string) : string :=
  match p with
  | Some s => s
  | None => "undefined"
  end.

(** [if (limit)]: [NaN] and [0] are falsy. *)
Definition truthy_num (n : number) : bool :=
  match n with
  | NaN => false
  | Int z => negb (z =? 0)
  | Infinity _ => true
  end.

(** The time spans of the token library ([expiresIn: "10h"]), in
    milliseconds: a whole decimal number, optional spaces and a short unit.
    Fractions and the long unit names are not covered. *)
Fixpoint skip_blanks (s : string) : string :=
  match s with
  | String " " s' => skip_blanks s'
  | _ => s
  end.

Definition unit_ms (u : string) : option Z :=
  if String.eqb u "" || String.eqb u "ms" then Some 1
  else if String.eqb u "s" then Some 1000
  else if String.eqb u "m" then Some 60000
  else if String.eqb u "h" then Some 3600000
  else if String.eqb u "d" then Some 86400000
  else if String.eqb u "w" then Some 604800000
  else None.

Definition ms (s : string) : option Z :=
  match digits_from 10 None s with
  | (Some n, rest) => (fun u => n * u) <$> unit_ms (skip_blanks rest)
  | (None, _) => None
  end.

(** Seconds for a string [expiresIn]. *)
Definition timespan (s : string) : option Z := (fun m => m / 1000) <$> ms s.


(** ** Regular expressions: a fragment of the store's engine

    The store hands [$regex] patterns to a Perl-compatible engine and
    searches the field for a match anywhere in it.  [pcre] covers the
    patterns built from literal characters, [.], a backslash before a
    punctuation character, and the postfix operators [*], [+] and [?].
    On every other pattern it answers [None]; for a pattern such as [a|b]
    this means that the fragment does not cover it, not that the engine
    rejects it.  An atom stands for one byte, so [.] is exact on subjects
    of one-byte characters. *)

Inductive atom := Lit (c : ascii) | AnyChar.
Inductive quant := Once | Star | Plus | Opt.

Definition in_string (c : ascii) (s : string) : bool :=
  existsb (Ascii.eqb c) (list_ascii_of_string s).

(** The characters with a special meaning outside a character class. *)
Definition is_meta (c : ascii) : bool := in_string c "\^$.[|()?*+{".

Definition is_alnum (c : ascii) : bool :=
  let n := nat_of_ascii c in
  (((48 <=? n) && (n <=? 57)) || ((65 <=? n) && (n <=? 90))
   || ((97 <=? n) && (n <=? 122)))%nat.

Definition quant_of (c : ascii) : option quant :=
  if Ascii.eqb c "*" then Some Star
  else if Ascii.eqb c "+" then Some Plus
  else if Ascii.eqb c "?" then Some Opt
  else None.

Definition atom_of (c : ascii) : option atom :=
  if Ascii.eqb c "." then Some AnyChar
  else if is_meta c then None
  else Some (Lit c).

(** One item per step: an atom, then at most one postfix operator. *)
Fixpoint parse_items (s : string) : option (list (atom * quant)) :=
  let quantified (a : atom) (rest : string) :=
    match rest with
    | String q rest' =>
        match quant_of q with
        | Some qu =>
            match rest' with
            | String q2 _ =>
                match quant_of q2 with
                | Some _ => None
                | None => cons (a, qu) <$> parse_items rest'
                end
            | EmptyString => Some [(a, qu)]
            end
        | None => cons (a, Once) <$> parse_items rest
        end
    | EmptyString => Some [(a, Once)]
    end in
  match s with
  | EmptyString => Some []
  | String c rest =>
      if Ascii.eqb c "\" then
        match rest with
        | String esc rest' => if is_alnum esc then None else quantified (Lit esc) rest'
        | EmptyString => None
        end
      else
        match atom_of c with
        | Some a => quantified a rest
        | None => None
        end
  end.

(** A pattern without any special character. *)
Definition no_meta (pattern : string) : bool :=
  forallb (fun c => negb (is_meta c)) (list_ascii_of_string pattern).

(** [.] matches every character but a line feed. *)
Definition atom_ok (a : atom) (c : ascii) : bool :=
  match a with
  | Lit x => Ascii.eqb x c
  | AnyChar => negb (Ascii.eqb c "010")
  end.

(** Does the pattern match a prefix of the string?  By backtracking. *)
Fixpoint match_here (re : list (atom * quant)) (s : string) : bool :=
  match re with
  | [] => true
  | (a, q) :: re' =>
      let many :=
        fix many (t : string) : bool :=
          match_here re' t ||
          match t with
          | String c t' => atom_ok a c && many t'
          | EmptyString => false
          end in
      match q with
      | Once =>
          match s with
          | String c s' => atom_ok a c && match_here re' s'
          | EmptyString => false
          end
      | Star => many s
      | Plus =>
          match s with
          | String c s' => atom_ok a c && many s'
          | EmptyString => false
          end
      | Opt =>
          match_here re' s ||
          match s with
          | String c s' => atom_ok a c && match_here re' s'
          | EmptyString => false
          end
      end
  end.

(** An unanchored search: a match starting at some position. *)
Fixpoint search (re : list (atom * quant)) (s : string) : bool :=
  match_here re s ||
  match s with
  | String _ s' => search re s'
  | EmptyString => false
  end.

Definition pcre (pattern : string) : option (string -> bool) :=
  search <$> parse_items pattern.

(** ** The document store *)

(** A condition on one field of a filter: equality with a value, or
    [{$regex: pattern}] with the pattern already compiled. *)
Inductive cond :=
| CEq (v : value)
| CRegex (test : string -> bool).

Definition query := list (string * cond).

(** Equality with [null] also matches a missing field; a regular
    expression only matches a string. *)
Definition field_matches (d : document) (k : string) (c : cond) : bool :=
  match c with
  | CEq v =>
      match d !! k with
      | Some w => bool_decide (w = v)
      | None => bool_decide (v = VNull)
      end
  | CRegex test =>
      match d !! k with
      | Some (VStr s) => test s
      | _ => false
      end
  end.

Definition matches (q : query) (d : document) : bool :=
  forallb (fun kc => field_matches d kc.1 kc.2) q.

Definition findOne (q : query) (docs : list document) : option document :=
  List.find (matches q) docs.

Definition find (q : query) (docs : list document) : list document :=
  List.filter (matches q) docs.

(** [cursor.limit(n)]: zero is no limit, a negative [n] asks for a single
    batch of [-n] documents (the size cap of a batch is not modelled).  The
    server reads a limit that is not a number as zero and clamps one beyond
    the 64-bit integers, an infinite one included, to the largest of them;
    collections are taken to hold fewer documents than that. *)
Definition limit (n : number) (docs : list document) : list document :=
  match n with
  | Int z => if z =? 0 then docs else take (Z.abs_nat z) docs
  | NaN | Infinity _ => docs
  end.

Definition has_id (v : value) (docs : list document) : bool :=
  existsb (fun d => bool_decide (d !! "_id" = Some v)) docs.

(** Appending a document: it gets the fresh identifier when it has none,
    and the unique index on [_id] refuses a duplicate ([None]). *)
Definition store (doc : document) (fresh : oid) (docs : list document)
  : option (list document * value) :=
  let id := default (VId fresh) (doc !! "_id") in
  if has_id id docs then None
  else Some ((docs ++ [<["_id" := id]> doc])%list, id).

Definition insertOne := store.

Fixpoint deleteOne (q : query) (docs : list document) : list document * nat :=
  match docs with
  | [] => ([], 0%nat)
  | d :: ds =>
      if matches q d then (ds, 1%nat)
      else let '(ds', n) := deleteOne q ds in (d :: ds', n)
  end.

(** [{$set: upd}] on one document: the fields of [upd] replace or extend
    those of the document; [_id] is immutable ([None] is the write error).
    An empty [upd] changes nothing, as on servers from version 5. *)
Definition set_fields (upd d : document) : option document :=
  match upd !! "_id" with
  | Some v => if bool_decide (d !! "_id" = Some v) then Some (upd ∪ d) else None
  | None => Some (upd ∪ d)
  end.

(** The equality conditions of a filter, as the fields of the document an
    upsert creates. *)
Fixpoint eq_fields (q : query) : document :=
  match q with
  | [] => ∅
  | (k, CEq v) :: q' => <[k := v]> (eq_fields q')
  | (_, CRegex _) :: q' => eq_fields q'
  end.

Record update_result := {
  matchedCount : nat;
  modifiedCount : nat;
  upsertedCount : nat;
  upsertedId : option value
}.

(** The document an upsert creates: the filter's equalities, then the
    fields of [$set]; the two may not disagree on [_id]. *)
Definition new_document (q : query) (upd : document) : option document :=
  let base := eq_fields q in
  match upd !! "_id", base !! "_id" with
  | Some v, Some w => if bool_decide (v = w) then Some (upd ∪ base) else None
  | _, _ => Some (upd ∪ base)
  end.

(** The insert half of an upsert. *)
Definition upsert (q : query) (upd : document) (fresh : oid) (docs : list document)
  : option (list document * update_result) :=
  match new_document q upd with
  | Some doc =>
      match store doc fresh docs with
      | Some (docs', id) =>
          Some (docs', {| matchedCount := 0; modifiedCount := 0;
                          upsertedCount := 1; upsertedId := Some id |})
      | None => None
      end
  | None => None
  end.

Inductive update_outcome :=
| NoMatch
| Failed (docs : list document)
| Done (docs : list document) (matched modified : nat).

Definition changed (d d' : document) : nat := if bool_decide (d = d') then 0%nat else 1%nat.

(** The first matching document is rewritten. *)
Fixpoint update_first (q : query) (upd : document) (docs : list document) : update_outcome :=
  match docs with
  | [] => NoMatch
  | d :: ds =>
      if matches q d then
        match set_fields upd d with
        | Some d' => Done (d' :: ds) 1 (changed d d')
        | None => Failed docs
        end
      else
        match update_first q upd ds with
        | NoMatch => NoMatch
        | Failed ds' => Failed (d :: ds')
        | Done ds' m n => Done (d :: ds') m n
        end
  end.

(** Every matching document is rewritten, in order; a write error stops the
    scan and keeps what was written before it. *)
Fixpoint update_all (q : query) (upd : document) (docs : list document) : update_outcome :=
  match docs with
  | [] => NoMatch
  | d :: ds =>
      if matches q d then
        match set_fields upd d with
        | Some d' =>
            match update_all q upd ds with
            | NoMatch => Done (d' :: ds) 1 (changed d d')
            | Failed ds' => Failed (d' :: ds')
            | Done ds' m n => Done (d' :: ds') (S m) (changed d d' + n)
            end
        | None => Failed docs
        end
      else
        match update_all q upd ds with
        | NoMatch => NoMatch
        | Failed ds' => Failed (d :: ds')
        | Done ds' m n => Done (d :: ds') m n
        end
  end.

(** The collection after the call, and the result, or [None] when the
    driver's promise rejects. *)
Definition run_update (scan : update_outcome) (q : query) (upd : document)
    (fresh : oid) (docs : list document)
  : list document * option update_result :=
  match scan with
  | Done docs' m n =>
      (docs', Some {| matchedCount := m; modifiedCount := n;
                      upsertedCount := 0; upsertedId := None |})
  | Failed docs' => (docs', None)
  | NoMatch =>
      match upsert q upd fresh docs with
      | Some (docs', r) => (docs', Some r)
      | None => (docs, None)
      end
  end.

(** [updateOne(q, {$set: upd}, {upsert: true})] *)
Definition updateOne (q : query) (upd : document) (fresh : oid) (docs : list document) :=
  run_update (update_first q upd docs) q upd fresh docs.

(** [updateMany(q, {$set: upd}, {upsert: true})] *)
Definition updateMany (q : query) (upd : document) (fresh : oid) (docs : list document) :=
  run_update (update_all q upd docs) q upd fresh docs.

(** The filter of GET /categories/:id, read off a product: its [category]
    is a string passing the test and its [isSold] is [false]. *)
Definition unsold_in_category (test : string -> bool) (p : document) : bool :=
  match p !! "category" with
  | Some (VStr c) => test c
  | _ => false
  end && bool_decide (p !! "isSold" = Some (VBool false)).

(** The store keeps [_id] unique within a collection. *)
Definition unique_ids (docs : list document) : Prop :=
  NoDup (map (fun d => d !! "_id") docs).

(** The document an upsert of PUT /products/advertisement/:id creates. *)
Definition advertisement (o : oid) (sellerEmail : value) : document :=
  {[ "_id" := VId o; "sellerEmail" := sellerEmail; "isAdvertised" := VBool true ]}.

(** The filter [{sellerEmail: email}] of the cascade, read off a product. *)
Definition sold_by (email : option string) (p : document) : bool :=
  matches [("sellerEmail", CEq (param email))] p.

(** ** Requests, responses and the database *)

(** The claims of a token; [{email}] signed with an absent email has none. *)
Record claims := {
  claim_email : option string;
  iat : Z;
  exp : option Z
}.

Record request := {
  authorization : option string;   (* req.headers.authorization *)
  params_id : string;              (* req.params.id *)
  params_email : string;           (* req.params.email *)
  query_email : option string;     (* req.query.email *)
  query_limit : option string;     (* req.query.limit *)
  body : document;                 (* req.body *)
  decoded : option claims          (* req.decoded *)
}.

Definition with_decoded (req : request) (d : claims) : request :=
  {| authorization := authorization req; params_id := params_id req;
     params_email := params_email req; query_email := query_email req;
     query_limit := query_limit req; body := body req; decoded := Some d |}.

Inductive payload :=
| Message (message : string)
| Documents (docs : list document)
| Inserted (insertedId : value)
| Updated (r : update_result)
| Deleted (deletedCount : nat)
| AccessToken (accessToken : string)
| IsAdmin (isAdmin : bool)
| IsBuyer (isBuyer : bool)
| IsSeller (isSeller : bool)
| DistrictNames
| StatusText.

(** What the client gets: a response, or none when the handler's promise
    rejects. *)
Inductive outcome :=
| Sent (status : Z) (p : payload)
| Crashed.

Record db := {
  categories : list document;
  users : list document;
  products : list document
}.

Definition with_users (s : db) (us : list document) : db :=
  {| categories := categories s; users := us; products := products s |}.

Definition with_products (s : db) (ps : list document) : db :=
  {| categories := categories s; users := users s; products := ps |}.

(** What a request sees of the outside: the clock in seconds, and the
    identifiers generated while it is served. *)
Record env := {
  now : Z;
  fresh : nat -> oid
}.

Definition handler := request -> db -> db * outcome.

Definition send (status : Z) (p : payload) (s : db) : db * outcome := (s, Sent status p).

Definition crash (s : db) : db * outcome := (s, Crashed).

(** ** The server *)

Section Server.

(** [process.env.ACCESS_TOKEN] *)
Variable ACCESS_TOKEN : string.

(** The signed compact serialisation of a set of claims, and its inverse
    on the tokens that carry a valid signature for the key. *)
Variable jws_sign : string -> claims -> string.
Variable jws_verify : string -> string -> option claims.

(** The [ObjectId] constructor; [None] when it throws. *)
Variable ObjectId : string -> option oid.

(** The store's regular expression compiler; [None] when it rejects the
    pattern. *)
Variable regex : string -> option (string -> bool).

Variable e : env.

(** [jwt.sign({email}, secret, {expiresIn})]; [None] when it throws. *)
Definition jwt_sign (email : option string) (secret : string) (expiresIn : string)
  : option string :=
  (fun span => jws_sign secret
     {| claim_email := email; iat := now e; exp := Some (now e + span) |})
  <$> timespan expiresIn.

(** [jwt.verify(token, secret, callback)]; [None] is a call of the
    callback with an error: a malformed token, a wrong signature, or an
    expiry that is not in the future. *)
Definition jwt_verify (token secret : string) : option claims :=
  match jws_verify secret token with
  | Some c =>
      match exp c with
      | Some t => if t <=? now e then None else Some c
      | None => Some c
      end
  | None => None
  end.

Definition verifyToken (next : handler) : handler := fun req s =>
  match authorization req with
  | None => send 401 (Message "Unauthorized access") s
  | Some authHeader =>
      if String.eqb authHeader "" then send 401 (Message "Unauthorized access") s
      else
        let token := last_piece authHeader in
        match jwt_verify token ACCESS_TOKEN with
        | None => send 403 (Message "Forbidden access") s
        | Some d => next (with_decoded req d) s
        end
  end.

Definition verifyAdmin (next : handler) : handler := fun req s =>
  match decoded req with
  | None => crash s
  | Some d =>
      let decodedEmail := claim_email d in
      let q := [("email", CEq (param decodedEmail))] in
      let user := findOne q (users s) in
      if negb (field_is user "userRole" "admin")
      then send 403 (Message "Forbidden access") s
      else next req s
  end.

Definition verifySeller (next : handler) : handler := fun req s =>
  match decoded req with
  | None => crash s
  | Some d =>
      let decodedEmail := claim_email d in
      let q := [("email", CEq (param decodedEmail))] in
      let user := findOne q (users s) in
      if negb (field_is user "userRole" "seller")
      then send 403 (Message "Forbidden access") s
      else next req s
  end.

(** [app.post("/products", ...)] *)
Definition post_products : handler := fun req s =>
  let product := body req in
  match insertOne product (fresh e 0) (products s) with
  | Some (ps, id) => send 200 (Inserted id) (with_products s ps)
  | None => crash s
  end.

(** [app.get("/products", ...)] *)
Definition get_products : handler := fun req s =>
  let sellerEmail := query_email req in
  let q := [("sellerEmail", CEq (param sellerEmail))] in
  send 200 (Documents (find q (products s))) s.

(** [app.get("/products/reported", ...)] *)
Definition get_products_reported : handler := fun req s =>
  let q := [("isReported", CEq (VBool true))] in
  send 200 (Documents (find q (products s))) s.

(** [app.delete("/products/reported/:id", ...)] *)
Definition delete_products_reported_id : handler := fun req s =>
  let productId := params_id req in
  match ObjectId productId with
  | Some o =>
      let q := [("_id", CEq (VId o))] in
      let '(ps, n) := deleteOne q (products s) in
      send 200 (Deleted n) (with_products s ps)
  | None => crash s
  end.

(** [app.delete("/products/:id", ...)] *)
Definition delete_products_id : handler := fun req s =>
  let sellerEmail := query_email req in
  let productId := params_id req in
  match ObjectId productId with
  | Some o =>
      let q := [("sellerEmail", CEq (param sellerEmail)); ("_id", CEq (VId o))] in
      let '(ps, n) := deleteOne q (products s) in
      send 200 (Deleted n) (with_products s ps)
  | None => crash s
  end.

(** [app.put("/products/:id", ...)] *)
Definition put_products_id : handler := fun req s =>
  let productId := params_id req in
  match ObjectId productId with
  | Some o =>
      let q := [("_id", CEq (VId o))] in
      let update := body req in
      match updateOne q update (fresh e 0) (products s) with
      | (ps, Some result) => send 200 (Updated result) (with_products s ps)
      | (ps, None) => crash (with_products s ps)
      end
  | None => crash s
  end.

(** [app.put("/products/advertisement/:id", ...)] *)
Definition put_products_advertisement_id : handler := fun req s =>
  let sellerEmail := query_email req in
  let productId := params_id req in
  match ObjectId productId with
  | Some o =>
      let q := [("sellerEmail", CEq (param sellerEmail)); ("_id", CEq (VId o))] in
      let update : document := {["isAdvertised" := VBool true]} in
      match updateOne q update (fresh e 0) (products s) with
      | (ps, Some result) => send 200 (Updated result) (with_products s ps)
      | (ps, None) => crash (with_products s ps)
      end
  | None => crash s
  end.

(** [app.get("/products/advertisement", ...)] *)
Definition get_products_advertisement : handler := fun req s =>
  let q := [("isAdvertised", CEq (VBool true))] in
  send 200 (Documents (find q (products s))) s.

(** [app.get("/categories", ...)] *)
Definition get_categories : handler := fun req s =>
  let limit_ := parseInt (to_string (query_limit req)) in
  let q : query := [] in
  let result :=
    if truthy_num limit_ then limit limit_ (find q (categories s))
    else find q (categories s) in
  send 200 (Documents result) s.

(** [app.get("/categories/:id", ...)] *)
Definition get_categories_id : handler := fun req s =>
  let categoryId := params_id req in
  match regex categoryId with
  | Some test =>
      let q := [("category", CRegex test); ("isSold", CEq (VBool false))] in
      send 200 (Documents (find q (products s))) s
  | None => crash s
  end.

(** [app.get("/users/admin/:email", ...)] *)
Definition get_users_admin_email : handler := fun req s =>
  let email := params_email req in
  let q := [("email", CEq (VStr email))] in
  let result := findOne q (users s) in
  send 200 (IsAdmin (field_is result "userRole" "admin")) s.

(** [app.get("/users/buyer", ...)] *)
Definition get_users_buyer : handler := fun req s =>
  let q := [("userRole", CEq (VStr "buyer"))] in
  send 200 (Documents (find q (users s))) s.

(** [app.get("/users/buyer/:email", ...)] *)
Definition get_users_buyer_email : handler := fun req s =>
  let email := params_email req in
  let q := [("email", CEq (VStr email))] in
  let result := findOne q (users s) in
  send 200 (IsBuyer (field_is result "userRole" "buyer")) s.

(** [app.get("/users/seller/:email", ...)] *)
Definition get_users_seller_email : handler := fun req s =>
  let email := params_email req in
  let q := [("email", CEq (VStr email))] in
  let result := findOne q (users s) in
  send 200 (IsSeller (field_is result "userRole" "seller")) s.

(** [app.get("/users/seller", ...)] *)
Definition get_users_seller : handler := fun req s =>
  let q := [("userRole", CEq (VStr "seller"))] in
  send 200 (Documents (find q (users s))) s.

(** [app.put("/users/seller/:id", ...)]: the user, then the products. *)
Definition put_users_seller_id : handler := fun req s =>
  let userId := params_id req in
  let userEmail := query_email req in
  match ObjectId userId with
  | Some o =>
      let q := [("_id", CEq (VId o))] in
      let update := body req in
      match updateOne q update (fresh e 0) (users s) with
      | (us, Some result) =>
          let productsFilter := [("sellerEmail", CEq (param userEmail))] in
          match updateMany productsFilter update (fresh e 1) (products s) with
          | (ps, Some _) => send 200 (Updated result) (with_products (with_users s us) ps)
          | (ps, None) => crash (with_products (with_users s us) ps)
          end
      | (us, None) => crash (with_users s us)
      end
  | None => crash s
  end.

(** [app.delete("/users/:id", ...)] *)
Definition delete_users_id : handler := fun req s =>
  let userId := params_id req in
  match ObjectId userId with
  | Some o =>
      let q := [("_id", CEq (VId o))] in
      let '(us, n) := deleteOne q (users s) in
      send 200 (Deleted n) (with_users s us)
  | None => crash s
  end.

(** [app.post("/users", ...)] *)
Definition post_users : handler := fun req s =>
  let user := body req in
  let user :=
    if negb (truthy (user !! "userRole")) then <["userRole" := VStr "buyer"]> user
    else user in
  let isExisting := findOne [("email", CEq (body_field user "email"))] (users s) in
  match isExisting with
  | Some _ => send 200 (Message "User already exists!") s
  | None =>
      match insertOne user (fresh e 0) (users s) with
      | Some (us, id) => send 200 (Inserted id) (with_users s us)
      | None => crash s
      end
  end.

(** [app.get("/jwt", ...)] *)
Definition get_jwt : handler := fun req s =>
  let email := query_email req in
  let user := findOne [("email", CEq (param email))] (users s) in
  match user with
  | Some _ =>
      match jwt_sign email ACCESS_TOKEN "10h" with
      | Some token => send 200 (AccessToken token) s
      | None => crash s
      end
  | None => send 401 (Message "Unauthorized access") s
  end.

(** The routes, each with its chain of middleware. *)
Inductive route :=
| GET_root
| GET_bd_districtNames
| POST_products
| GET_products
| GET_products_reported
| DELETE_products_reported_id
| DELETE_products_id
| PUT_products_id
| PUT_products_advertisement_id
| GET_products_advertisement
| GET_categories
| GET_categories_id
| GET_users_admin_email
| GET_users_buyer
| GET_users_buyer_email
| GET_users_seller_email
| GET_users_seller
| PUT_users_seller_id
| DELETE_users_id
| POST_users
| GET_jwt.

Inductive guard := Open | Token | TokenAdmin | TokenSeller.

Definition guard_of (r : route) : guard :=
  match r with
  | GET_root | GET_bd_districtNames | GET_products_advertisement
  | GET_categories | POST_users | GET_jwt => Open
  | PUT_products_id | GET_categories_id | GET_users_admin_email
  | GET_users_buyer | GET_users_buyer_email | GET_users_seller_email
  | GET_users_seller => Token
  | GET_products_reported | DELETE_products_reported_id
  | PUT_users_seller_id | DELETE_users_id => TokenAdmin
  | POST_products | GET_products | DELETE_products_id
  | PUT_products_advertisement_id => TokenSeller
  end.

Definition handler_of (r : route) : handler :=
  match r with
  | GET_root => fun _ => send 200 StatusText
  | GET_bd_districtNames => fun _ => send 200 DistrictNames
  | POST_products => post_products
  | GET_products => get_products
  | GET_products_reported => get_products_reported
  | DELETE_products_reported_id => delete_products_reported_id
  | DELETE_products_id => delete_products_id
  | PUT_products_id => put_products_id
  | PUT_products_advertisement_id => put_products_advertisement_id
  | GET_products_advertisement => get_products_advertisement
  | GET_categories => get_categories
  | GET_categories_id => get_categories_id
  | GET_users_admin_email => get_users_admin_email
  | GET_users_buyer => get_users_buyer
  | GET_users_buyer_email => get_users_buyer_email
  | GET_users_seller_email => get_users_seller_email
  | GET_users_seller => get_users_seller
  | PUT_users_seller_id => put_users_seller_id
  | DELETE_users_id => delete_users_id
  | POST_users => post_users
  | GET_jwt => get_jwt
  end.

(** A route's middleware, around any final handler. *)
Definition chain (g : guard) (h : handler) : handler :=
  match g with
  | Open => h
  | Token => verifyToken h
  | TokenAdmin => verifyToken (verifyAdmin h)
  | TokenSeller => verifyToken (verifySeller h)
  end.

Definition serve (r : route) : handler := chain (guard_of r) (handler_of r).

(** *** Vocabulary of the statements *)

Definition unauthorized (s : db) : db * outcome :=
  (s, Sent 401 (Message "Unauthorized access")).

Definition forbidden (s : db) : db * outcome :=
  (s, Sent 403 (Message "Forbidden access")).

(** The request carries an Authorization header, with this value. *)
Definition has_header (req : request) (h : string) : Prop :=
  authorization req = Some h.

(** The token taken from the header fails verification. *)
Definition token_rejected (h : string) : Prop :=
  jwt_verify (last_piece h) ACCESS_TOKEN = None.

(** The request passes [verifyToken], which decodes the claims [d]. *)
Definition authenticated (req : request) (d : claims) : Prop :=
  exists h, authorization req = Some h /\ h <> "" /\
            jwt_verify (last_piece h) ACCESS_TOKEN = Some d.

(** The role stored for an email: the [userRole] of the first user
    record with that email, if there is one. *)
Definition stored_role (s : db) (email : option string) : option value :=
  findOne [("email", CEq (param email))] (users s) ≫= (fun u => u !! "userRole").

End Server.

(** ** Sample requests and databases *)

Module Sample.

Definition key : string := "s3cret".

Definition clock : env :=
  {| now := 1000;
     fresh := fun n => if (n =? 0)%nat then "6370aaaaaaaaaaaaaaaaaaa0"
                       else "6370aaaaaaaaaaaaaaaaaaa1" |}.

(** A verifier that accepts no token at all. *)
Definition reject_all : string -> string -> option claims := fun _ _ => None.

(** A toy token format: the token is the email it was issued for, and it
    never expires. *)
Definition toy_sign : string -> claims -> string :=
  fun _ c => default "" (claim_email c).

Definition toy_verify : string -> string -> option claims :=
  fun _ t => Some {| claim_email := Some t; iat := 0; exp := None |}.

(** Identifiers are accepted as they come when they have 24 characters. *)
Definition toy_ObjectId (s : string) : option oid :=
  if (String.length s =? 24)%nat then Some s else None.

Definition request0 : request :=
  {| authorization := None; params_id := ""; params_email := "";
     query_email := None; query_limit := None; body := ∅; decoded := None |}.

Definition with_header (h : string) (req : request) : request :=
  {| authorization := Some h; params_id := params_id req;
     params_email := params_email req; query_email := query_email req;
     query_limit := query_limit req; body := body req; decoded := decoded req |}.

(** A handler that leaves a trace: it empties the categories. *)
Definition marker : handler := fun _ s =>
  send 200 StatusText {| categories := []; users := users s; products := products s |}.

Definition id_a : oid := "6370000000000000000000a1".
Definition id_b : oid := "6370000000000000000000b2".
Definition id_p : oid := "6370000000000000000000c3".
Definition id_q : oid := "6370000000000000000000d4".

Definition ann : document :=
  {[ "_id" := VId id_a; "email" := VStr "ann@x.io"; "userRole" := VStr "admin" ]}.

Definition bob : document :=
  {[ "_id" := VId id_b; "email" := VStr "bob@x.io"; "userRole" := VStr "seller" ]}.

Definition drill : document :=
  {[ "_id" := VId id_p; "sellerEmail" := VStr "bob@x.io";
     "category" := VStr "x"; "isSold" := VBool false ]}.

Definition saw : document :=
  {[ "_id" := VId id_q; "sellerEmail" := VStr "ann@x.io";
     "category" := VStr "tools"; "isSold" := VBool false ]}.

Definition cat1 : document := {[ "_id" := VId id_p; "name" := VStr "tools" ]}.

Definition cat2 : document := {[ "_id" := VId id_q; "name" := VStr "garden" ]}.

Definition shop : db :=
  {| categories := [cat1]; users := [ann; bob]; products := [drill; saw] |}.

End Sample.

(** A token format with readable fields: issue time, expiry, signing key
    and email, separated by dots.  The key must not contain a dot. *)
Module Stamp.

Fixpoint cut (s : string) : string * string :=
  match s with
  | EmptyString => ("", "")
  | String c s' =>
      if Ascii.eqb c "." then ("", s')
      else let '(a, b) := cut s' in (String c a, b)
  end.

Definition sign (k : string) (c : claims) : string :=
  pretty (iat c) +:+ "." +:+ pretty (default 0 (exp c)) +:+ "." +:+ k +:+ "."
  +:+ default "" (claim_email c).

Definition verify (k : string) (t : string) : option claims :=
  let '(a, r1) := cut t in
  let '(b, r2) := cut r1 in
  let '(k', email) := cut r2 in
  if String.eqb k k' then
    match parseInt a, parseInt b with
    | Int i, Int x => Some {| claim_email := Some email; iat := i; exp := Some x |}
    | _, _ => None
    end
  else None.

End Stamp.

(** ** The earliest revision

    Its POST /users marks every body as a buyer and inserts it, without
    looking for the email. *)
Module Earlier.

Definition post_users (e : env) : handler := fun req s =>
  let user := <["isBuyer" := VBool true]> (body req) in
  match insertOne user (fresh e 0) (users s) with
  | Some (us, id) => send 200 (Inserted id) (with_users s us)
  | None => crash s
  end.

End Earlier.

(** ** Vocabulary for the routes as a whole *)

Definition no_space (t : string) : bool :=
  forallb (fun c => negb (Ascii.eqb c " ")) (list_ascii_of_string t).

Definition with_authorization (a : option string) (req : request) : request :=
  {| authorization := a; params_id := params_id req;
     params_email := params_email req; query_email := query_email req;
     query_limit := query_limit req; body := body req; decoded := decoded req |}.

Definition is_get (r : route) : bool :=
  match r with
  | GET_root | GET_bd_districtNames | GET_products | GET_products_reported
  | GET_products_advertisement | GET_categories | GET_categories_id
  | GET_users_admin_email | GET_users_buyer | GET_users_buyer_email
  | GET_users_seller_email | GET_users_seller | GET_jwt => true
  | _ => false
  end.

(** The routes whose handler calls a writing operation on the users, and on
    the products. *)
Definition writes_users (r : route) : bool :=
  match r with
  | POST_users | PUT_users_seller_id | DELETE_users_id => true
  | _ => false
  end.

Definition writes_products (r : route) : bool :=
  match r with
  | POST_products | DELETE_products_reported_id | DELETE_products_id
  | PUT_products_id | PUT_products_advertisement_id | PUT_users_seller_id => true
  | _ => false
  end.

(** The email of a user record as a filter sees it: [null] when missing. *)
Definition email_of (u : document) : value := body_field u "email".

(** The routes whose handler builds an [ObjectId] from the path. *)
Definition uses_id (r : route) : bool :=
  match r with
  | DELETE_products_reported_id | DELETE_products_id | PUT_products_id
  | PUT_products_advertisement_id | PUT_users_seller_id | DELETE_users_id => true
  | _ => false
  end.

(** ** Sample requests for the routes *)

Module Demo.

(** The sample server: the toy tokens of [Sample], where a token is the
    email it stands for. *)
Definition app : route -> handler :=
  serve Sample.key Sample.toy_sign Sample.toy_verify Sample.toy_ObjectId pcre Sample.clock.

Definition who (email : string) : claims :=
  {| claim_email := Some email; iat := 0; exp := None |}.

Definition request (auth : option string) (id : string) (email : option string)
    (b : document) : request :=
  {| authorization := auth; params_id := id; params_email := "";
     query_email := email; query_limit := None; body := b; decoded := None |}.

Definition as_ann : option string := Some "Bearer ann@x.io".
Definition as_bob : option string := Some "Bearer bob@x.io".

Definition cy : document := {[ "email" := VStr "cy@x.io" ]}.

Definition id_c : oid := "6370000000000000000000e5".

Definition cy_record : document :=
  {[ "_id" := VId id_c; "email" := VStr "cy@x.io"; "userRole" := VStr "buyer" ]}.

Definition town : db :=
  {| categories := [Sample.cat1]; users := [Sample.ann; Sample.bob; cy_record];
     products := [Sample.drill; Sample.saw] |}.

Definition promote : document := {[ "userRole" := VStr "seller" ]}.

Definition later : env :=
  {| now := 5000; fresh := fun _ => "6370bbbbbbbbbbbbbbbbbbb0" |}.

Definition drill_for_sale : document :=
  {[ "sellerEmail" := VStr "bob@x.io"; "category" := VStr "tools";
     "isSold" := VBool false ]}.

End Demo.
(** * Properties *)

(** ** Strings and numbers *)

Example parseInt_leading_spaces_and_sign : parseInt "  -12px" = Int (-12). Proof. reflexivity. Qed.
Example parseInt_hexadecimal : parseInt "0x1F" = Int 31. Proof. reflexivity. Qed.
Example parseInt_not_a_number : parseInt "abc" = NaN. Proof. reflexivity. Qed.
Example parseInt_of_absent_parameter : parseInt (to_string None) = NaN. Proof. reflexivity. Qed.

(** White space of several bytes is skipped like the space: U+00A0, U+2003
    and U+FEFF here. *)
Example parseInt_no_break_space :
  parseInt (String "194" (String "160" "2")) = Int 2.
Proof. reflexivity. Qed.

Example parseInt_mixed_spaces :
  parseInt (String "226" (String "128" (String "131"
             (String "239" (String "187" (String "191" " 12abc")))))) = Int 12.
Proof. reflexivity. Qed.

(** Above 2^53 the answer is the nearest double, ties to even; the largest
    double is followed by infinity. *)
Example parseInt_rounds_down : parseInt "9007199254740993" = Int 9007199254740992.
Proof. reflexivity. Qed.

Example parseInt_rounds_up : parseInt "-9007199254740995" = Int (-9007199254740996).
Proof. reflexivity. Qed.

Example to_double_largest :
  to_double (2 ^ 1024 - 2 ^ 970 - 1) = Int (2 ^ 1024 - 2 ^ 971).
Proof. vm_compute. reflexivity. Qed.

Example to_double_overflow : to_double (- (2 ^ 1024 - 2 ^ 970)) = Infinity true.
Proof. vm_compute. reflexivity. Qed.

Lemma to_double_safe m : Z.abs m < 2 ^ 53 -> to_double m = Int m.
Proof.
  intros H. unfold to_double. destruct (Z.abs m <? 2 ^ 53) eqn:E; [reflexivity |].
  apply Z.ltb_ge in E. lia.
Qed.
Example timespan_ten_hours : timespan "10h" = Some 36000. Proof. reflexivity. Qed.
Example split_bearer_header : split_space "Bearer abc" = ["Bearer"; "abc"]. Proof. reflexivity. Qed.
Example last_piece_of_empty_header : last_piece "" = "". Proof. reflexivity. Qed.

(** ** The document store *)

Lemma matches_nil d : matches [] d = true.
Proof. reflexivity. Qed.

Lemma find_all docs : find [] docs = docs.
Proof.
  unfold find. induction docs as [| d ds IH]; simpl; [reflexivity |].
  now rewrite IH.
Qed.

Lemma findOne_None q docs :
  findOne q docs = None <-> (forall d, In d docs -> matches q d = false).
Proof.
  unfold findOne. split.
  - intros H d Hd. exact (List.find_none _ _ H d Hd).
  - induction docs as [| d ds IH]; simpl; intros H; [reflexivity |].
    rewrite (H d) by now left. apply IH. intros d' Hd'. apply H. now right.
Qed.

Lemma findOne_Some q docs u :
  findOne q docs = Some u -> In u docs /\ matches q u = true.
Proof. apply List.find_some. Qed.

Lemma findOne_exists q docs d :
  In d docs -> matches q d = true -> exists u, findOne q docs = Some u.
Proof.
  intros Hd Hm. destruct (findOne q docs) as [u |] eqn:E; [eauto |].
  rewrite findOne_None in E. rewrite (E d Hd) in Hm. discriminate.
Qed.

(** A filter on the single field [k], against a document that has it. *)
Lemma matches_eq_field k v d :
  matches [(k, CEq v)] d = true <->
  d !! k = Some v \/ (d !! k = None /\ v = VNull).
Proof.
  unfold matches; simpl. rewrite andb_true_r.
  destruct (d !! k) as [w |]; rewrite bool_decide_eq_true.
  - split; [intros ->; now left | intros [[= ->] | [[=] _]]; reflexivity].
  - split; [intros ->; now right | intros [[=] | [_ H]]; exact H].
Qed.

Lemma field_matches_eq d k v :
  v <> VNull -> field_matches d k (CEq v) = true <-> d !! k = Some v.
Proof.
  intros Hv. simpl. destruct (d !! k) as [w |]; rewrite bool_decide_eq_true.
  - split; congruence.
  - split; [contradiction | discriminate].
Qed.

Lemma matches_owner email o d :
  matches [("sellerEmail", CEq (VStr email)); ("_id", CEq (VId o))] d = true <->
  d !! "sellerEmail" = Some (VStr email) /\ d !! "_id" = Some (VId o).
Proof.
  unfold matches. cbn [forallb fst snd]. rewrite andb_true_r, andb_true_iff.
  now rewrite !field_matches_eq by discriminate.
Qed.

Lemma deleteOne_no_match q docs :
  (forall d, In d docs -> matches q d = false) -> deleteOne q docs = (docs, 0%nat).
Proof.
  induction docs as [| d ds IH]; intros H; [reflexivity |].
  simpl. rewrite (H d) by now left.
  rewrite IH; [reflexivity |]. intros d' Hd'. apply H. now right.
Qed.

Lemma deleteOne_first q l1 p l2 :
  (forall d, In d l1 -> matches q d = false) -> matches q p = true ->
  deleteOne q (l1 ++ p :: l2)%list = ((l1 ++ l2)%list, 1%nat).
Proof.
  induction l1 as [| d ds IH]; intros H Hp; simpl.
  - now rewrite Hp.
  - rewrite (H d) by now left.
    rewrite IH; [reflexivity | | exact Hp]. intros d' Hd'. apply H. now right.
Qed.

(** With unique identifiers, the document carrying one splits the
    collection into two parts that do not carry it. *)
Lemma unique_ids_split docs p :
  unique_ids docs -> In p docs ->
  exists l1 l2, docs = (l1 ++ p :: l2)%list /\
                forall d, In d (l1 ++ l2)%list -> d !! "_id" <> p !! "_id".
Proof.
  intros Hu Hp. destruct (in_split _ _ Hp) as (l1 & l2 & ->).
  exists l1, l2. split; [reflexivity |]. intros d Hd Heq.
  unfold unique_ids in Hu. rewrite map_app in Hu. simpl in Hu.
  apply NoDup_app in Hu as (_ & Hleft & Hright).
  apply NoDup_cons in Hright as (Hhead & _).
  apply in_app_or in Hd. destruct Hd as [Hd | Hd].
  - apply (in_map (fun x : document => x !! "_id")) in Hd.
    apply list_elem_of_In in Hd. apply (Hleft _ Hd). rewrite Heq. now left.
  - apply (in_map (fun x : document => x !! "_id")) in Hd.
    apply list_elem_of_In in Hd. apply Hhead. now rewrite <- Heq.
Qed.

Lemma has_id_true v docs :
  has_id v docs = true <-> exists d, In d docs /\ d !! "_id" = Some v.
Proof.
  unfold has_id. rewrite existsb_exists.
  split; intros (d & Hd & H); exists d; split; try assumption.
  - now apply bool_decide_eq_true in H.
  - now apply bool_decide_eq_true.
Qed.

Lemma has_id_false v docs :
  has_id v docs = false <-> forall d, In d docs -> d !! "_id" <> Some v.
Proof.
  rewrite <- not_true_iff_false, has_id_true. split.
  - intros H d Hd Hv. apply H. eauto.
  - intros H (d & Hd & Hv). exact (H d Hd Hv).
Qed.

Lemma update_first_no_match q upd docs :
  (forall d, In d docs -> matches q d = false) -> update_first q upd docs = NoMatch.
Proof.
  induction docs as [| d ds IH]; intros H; [reflexivity |].
  simpl. rewrite (H d) by now left.
  rewrite IH; [reflexivity |]. intros d' Hd'. apply H. now right.
Qed.

Lemma set_fields_plain upd d :
  upd !! "_id" = None -> set_fields upd d = Some (upd ∪ d).
Proof. intros H. unfold set_fields. now rewrite H. Qed.

Lemma new_document_plain q upd :
  upd !! "_id" = None -> new_document q upd = Some (upd ∪ eq_fields q).
Proof. intros H. unfold new_document. now rewrite H. Qed.

(** An update that leaves [_id] alone rewrites the first match. *)
Lemma update_first_match q upd l1 u l2 :
  upd !! "_id" = None ->
  (forall d, In d l1 -> matches q d = false) -> matches q u = true ->
  update_first q upd (l1 ++ u :: l2)%list
  = Done (l1 ++ (upd ∪ u) :: l2)%list 1 (changed u (upd ∪ u)).
Proof.
  intros Hid. induction l1 as [| d ds IH]; intros H Hu; simpl.
  - now rewrite Hu, set_fields_plain.
  - rewrite (H d) by now left.
    rewrite IH; [reflexivity | | exact Hu]. intros d' Hd'. apply H. now right.
Qed.

(** An update that leaves [_id] alone never fails, and rewrites every
    match where it stands. *)
Lemma update_all_plain q upd docs :
  upd !! "_id" = None ->
  match update_all q upd docs with
  | NoMatch => forall d, In d docs -> matches q d = false
  | Failed _ => False
  | Done docs' _ _ => docs' = map (fun d => if matches q d then upd ∪ d else d) docs
  end.
Proof.
  intros Hid. induction docs as [| d ds IH]; simpl.
  - intros d [].
  - destruct (matches q d) eqn:Hm.
    + rewrite set_fields_plain by exact Hid.
      destruct (update_all q upd ds) as [| ds' | ds' m n]; try contradiction.
      * f_equal. clear Hm. induction ds as [| x xs IHx]; [reflexivity |].
        simpl. rewrite (IH x) by now left. f_equal. apply IHx.
        intros y Hy. apply IH. now right.
      * now rewrite IH.
    + destruct (update_all q upd ds) as [| ds' | ds' m n]; try contradiction.
      * intros x [<- | Hx]; [exact Hm | now apply IH].
      * now rewrite IH.
Qed.

Lemma map_unmatched q (upd : document) docs :
  (forall d, In d docs -> matches q d = false) ->
  map (fun d => if matches q d then upd ∪ d else d) docs = docs.
Proof.
  induction docs as [| d ds IH]; intros H; [reflexivity |].
  simpl. rewrite (H d) by now left. f_equal. apply IH.
  intros x Hx. apply H. now right.
Qed.

Lemma upsert_advertisement o v :
  <["_id" := VId o]> (({["isAdvertised" := VBool true]} : document) ∪
                      <["sellerEmail" := v]> (<["_id" := VId o]> ∅))
  = advertisement o v.
Proof.
  apply map_eq. intros k. unfold advertisement.
  destruct (decide (k = "_id")) as [-> |]; [by simplify_map_eq |].
  destruct (decide (k = "sellerEmail")) as [-> |]; [by simplify_map_eq |].
  destruct (decide (k = "isAdvertised")) as [-> |]; [by simplify_map_eq |].
  rewrite lookup_insert_ne by done.
  rewrite lookup_union.
  rewrite !lookup_insert_ne by done. rewrite lookup_singleton_ne by done.
  by simplify_map_eq.
Qed.

(** The upsert of the advertisement route, when nothing matches the
    filter: a new document if the identifier is free, a duplicate key error
    if a document carries it. *)
Lemma updateOne_advertisement o v fresh docs :
  (forall d, In d docs ->
             matches [("sellerEmail", CEq v); ("_id", CEq (VId o))] d = false) ->
  updateOne [("sellerEmail", CEq v); ("_id", CEq (VId o))]
            {["isAdvertised" := VBool true]} fresh docs
  = if has_id (VId o) docs then (docs, None)
    else ((docs ++ [advertisement o v])%list,
          Some {| matchedCount := 0; modifiedCount := 0;
                  upsertedCount := 1; upsertedId := Some (VId o) |}).
Proof.
  intros Hnone. unfold updateOne. rewrite (update_first_no_match _ _ _ Hnone).
  unfold run_update, upsert. rewrite new_document_plain by done.
  unfold store. cbn [eq_fields].
  assert (Hid : (({["isAdvertised" := VBool true]} : document) ∪
                 <["sellerEmail" := v]> (<["_id" := VId o]> ∅)) !! "_id"
                = Some (VId o)) by (by simplify_map_eq).
  rewrite Hid. simpl. destruct (has_id (VId o) docs); [reflexivity |].
  now rewrite upsert_advertisement.
Qed.

Lemma matches_id o d :
  matches [("_id", CEq (VId o))] d = true <-> d !! "_id" = Some (VId o).
Proof.
  rewrite matches_eq_field. split; [| now left].
  intros [H | [_ [=]]]. exact H.
Qed.

Lemma update_first_plain q upd docs :
  upd !! "_id" = None ->
  match update_first q upd docs with
  | NoMatch => forall d, In d docs -> matches q d = false
  | Failed _ => False
  | Done _ _ _ => True
  end.
Proof.
  intros Hid. induction docs as [| d ds IH]; simpl.
  - intros d [].
  - destruct (matches q d) eqn:Hm.
    + now rewrite set_fields_plain.
    + destruct (update_first q upd ds); try easy.
      intros x [<- | Hx]; [exact Hm | now apply IH].
Qed.

(** An update by identifier that leaves [_id] alone always succeeds: it
    rewrites the document, or creates it. *)
Lemma updateOne_by_id_succeeds o upd fresh docs :
  upd !! "_id" = None ->
  exists docs' r, updateOne [("_id", CEq (VId o))] upd fresh docs = (docs', Some r).
Proof.
  intros Hid. unfold updateOne.
  pose proof (update_first_plain [("_id", CEq (VId o))] upd docs Hid) as H.
  destruct (update_first _ upd docs) as [| | docs' m n]; [| contradiction |].
  - unfold run_update, upsert. rewrite new_document_plain by exact Hid.
    unfold store. cbn [eq_fields].
    assert (Ho : (upd ∪ <["_id" := VId o]> ∅) !! "_id" = Some (VId o)).
    { rewrite lookup_union, Hid. by simplify_map_eq. }
    rewrite Ho. simpl.
    assert (Hfree : has_id (VId o) docs = false).
    { apply has_id_false. intros d Hd Hc. apply matches_id in Hc.
      rewrite (H d Hd) in Hc. discriminate. }
    rewrite Hfree. eauto.
  - simpl. eauto.
Qed.

Lemma updateOne_by_id_rewrites o upd fresh l1 u l2 :
  upd !! "_id" = None ->
  u !! "_id" = Some (VId o) ->
  (forall x, In x l1 -> x !! "_id" <> Some (VId o)) ->
  (updateOne [("_id", CEq (VId o))] upd fresh (l1 ++ u :: l2)%list).1
  = (l1 ++ (upd ∪ u) :: l2)%list.
Proof.
  intros Hid Hu Hl1. unfold updateOne. rewrite update_first_match; try assumption.
  - reflexivity.
  - intros x Hx. apply not_true_is_false. rewrite matches_id. now apply Hl1.
  - now apply matches_id.
Qed.

(** The cascade: every match is rewritten where it stands; what may follow
    is the document of an upsert. *)
Lemma updateMany_plain q upd fresh docs :
  upd !! "_id" = None ->
  exists extra,
    (updateMany q upd fresh docs).1
    = (map (fun d => if matches q d then upd ∪ d else d) docs ++ extra)%list.
Proof.
  intros Hid. unfold updateMany.
  pose proof (update_all_plain q upd docs Hid) as H.
  destruct (update_all q upd docs) as [| | docs' m n]; [| contradiction |].
  - rewrite (map_unmatched _ _ _ H). unfold run_update.
    destruct (upsert q upd fresh docs) as [[docs' r] |] eqn:Hup.
    + unfold upsert in Hup. destruct (new_document q upd); [| discriminate].
      unfold store in Hup. destruct (has_id _ docs); [discriminate |].
      injection Hup as <- _. simpl. eauto.
    + exists []. simpl. now rewrite app_nil_r.
  - exists []. simpl. now rewrite app_nil_r.
Qed.

Lemma sold_by_spec E p :
  sold_by (Some E) p = true <-> p !! "sellerEmail" = Some (VStr E).
Proof.
  unfold sold_by, param. rewrite matches_eq_field. split; [| now left].
  intros [H | [_ [=]]]. exact H.
Qed.

(** The store's invariant on [_id] survives an insertion and a deletion,
    and [$set] never changes an identifier. *)
Lemma store_unique doc fresh docs docs' id :
  unique_ids docs -> store doc fresh docs = Some (docs', id) -> unique_ids docs'.
Proof.
  unfold store, unique_ids. intros Hu H.
  destruct (has_id _ docs) eqn:Hfree; [discriminate |].
  injection H as <- <-. rewrite map_app. simpl.
  apply NoDup_app. split; [exact Hu |]. split; [| apply NoDup_singleton].
  intros x Hx Hin. apply list_elem_of_singleton in Hin. subst x.
  apply list_elem_of_In, in_map_iff in Hx. destruct Hx as (d & Hd & Hin).
  rewrite lookup_insert_eq in Hd.
  apply has_id_false with (d := d) in Hfree; [contradiction | exact Hin].
Qed.

Lemma deleteOne_unique q docs :
  unique_ids docs -> unique_ids (deleteOne q docs).1.
Proof.
  unfold unique_ids. induction docs as [| d ds IH]; simpl; [easy |].
  intros Hu. apply NoDup_cons in Hu as [Hd Hds].
  destruct (matches q d); [exact Hds |].
  specialize (IH Hds). destruct (deleteOne q ds) as [ds' n] eqn:Hdel. simpl in *.
  apply NoDup_cons. split; [| exact IH].
  intros Hin. apply Hd. apply list_elem_of_In, in_map_iff in Hin.
  destruct Hin as (x & Hx & Hin). apply list_elem_of_In, in_map_iff.
  exists x. split; [exact Hx |].
  clear -Hdel Hin. revert ds' n Hdel Hin.
  induction ds as [| y ys IHy]; simpl; intros ds' n Hdel Hin.
  - injection Hdel as <- _. destruct Hin.
  - destruct (matches q y).
    + injection Hdel as <- _. now right.
    + destruct (deleteOne q ys) as [ys' m]. injection Hdel as <- _.
      destruct Hin as [<- | Hin]; [now left | right; eauto].
Qed.

Lemma set_fields_id upd d d' :
  set_fields upd d = Some d' -> d' !! "_id" = d !! "_id".
Proof.
  unfold set_fields. destruct (upd !! "_id") as [v |] eqn:Hv.
  - case_bool_decide as Hd; [| discriminate]. intros [= <-].
    now rewrite lookup_union, Hv, Hd.
  - intros [= <-]. rewrite lookup_union, Hv. now destruct (d !! "_id").
Qed.

(** ** Regular expressions *)

Lemma plain_char c :
  is_meta c = false ->
  Ascii.eqb c "\" = false /\ atom_of c = Some (Lit c) /\ quant_of c = None.
Proof.
  intros H. unfold atom_of, quant_of. rewrite H.
  unfold is_meta, in_string in H. simpl in H. rewrite !orb_false_iff in H.
  destruct H as (Hb & _ & _ & Hd & _ & _ & _ & _ & Hq & Hs & Hp & _).
  rewrite Hb, Hd, Hq, Hs, Hp. auto.
Qed.

Lemma parse_literal p :
  no_meta p = true ->
  parse_items p = Some (map (fun c => (Lit c, Once)) (list_ascii_of_string p)).
Proof.
  induction p as [| c rest IH]; [reflexivity |].
  unfold no_meta. simpl. rewrite andb_true_iff, negb_true_iff.
  intros [Hc Hrest]. specialize (IH Hrest).
  destruct (plain_char c Hc) as (Hb & Ha & _).
  rewrite Hb, Ha.
  destruct rest as [| q rest']; [reflexivity |].
  assert (Hq : is_meta q = false).
  { unfold no_meta in Hrest. simpl in Hrest.
    apply andb_true_iff in Hrest. now apply negb_true_iff. }
  destruct (plain_char q Hq) as (_ & _ & Hqq).
  rewrite Hqq. now rewrite IH.
Qed.

Lemma match_here_literal l s :
  match_here (map (fun c => (Lit c, Once)) l) s = starts_with (string_of_list_ascii l) s.
Proof.
  revert s. induction l as [| c l IH]; intros s; [reflexivity |].
  simpl. destruct s as [| b s']; [reflexivity |].
  now rewrite IH.
Qed.

Lemma search_literal l s :
  search (map (fun c => (Lit c, Once)) l) s = includes (string_of_list_ascii l) s.
Proof.
  induction s as [| b s' IH].
  - simpl. now rewrite match_here_literal.
  - cbn [search includes]. now rewrite match_here_literal, IH.
Qed.

(** On a pattern without special characters the search is the search for a
    substring. *)
Lemma pcre_literal p :
  no_meta p = true ->
  exists test, pcre p = Some test /\ forall s, test s = includes p s.
Proof.
  intros H. unfold pcre. rewrite (parse_literal p H). simpl.
  eexists. split; [reflexivity |]. intros s.
  now rewrite search_literal, string_of_list_ascii_of_string.
Qed.

Example pcre_dot : (fun t => t "x") <$> pcre "." = Some true.
Proof. reflexivity. Qed.

Example pcre_star : (fun t => (t "xaby", t "ay")) <$> pcre "ab*y" = Some (true, true).
Proof. reflexivity. Qed.

Example pcre_plus : (fun t => (t "xaby", t "ay")) <$> pcre "ab+y" = Some (true, false).
Proof. reflexivity. Qed.

Example pcre_escaped : (fun t => (t "a.b", t "axb")) <$> pcre "a\.b" = Some (true, false).
Proof. reflexivity. Qed.

(** ** The middleware *)

Section Middleware.

Variable ACCESS_TOKEN : string.
Variable jws_verify : string -> string -> option claims.
Variable e : env.

Local Abbreviation verify_token := (verifyToken ACCESS_TOKEN jws_verify e).
Local Abbreviation run := (chain ACCESS_TOKEN jws_verify e).
Local Abbreviation authentic := (authenticated ACCESS_TOKEN jws_verify e).

Lemma verifyToken_absent next req s :
  authorization req = None -> verify_token next req s = unauthorized s.
Proof. intros H. unfold verifyToken. now rewrite H. Qed.

Lemma verifyToken_empty next req s :
  authorization req = Some "" -> verify_token next req s = unauthorized s.
Proof. intros H. unfold verifyToken. now rewrite H. Qed.

Lemma verifyToken_rejected next req s h :
  authorization req = Some h -> h <> "" ->
  token_rejected ACCESS_TOKEN jws_verify e h ->
  verify_token next req s = forbidden s.
Proof.
  intros H Hne Hrej. unfold verifyToken. rewrite H.
  destruct (String.eqb_spec h ""); [contradiction |].
  unfold token_rejected in Hrej. now rewrite Hrej.
Qed.

Lemma verifyToken_pass next req s d :
  authentic req d -> verify_token next req s = next (with_decoded req d) s.
Proof.
  intros (h & H & Hne & Hok). unfold verifyToken. rewrite H.
  destruct (String.eqb_spec h ""); [contradiction |].
  now rewrite Hok.
Qed.

Lemma decoded_with_decoded req d : decoded (with_decoded req d) = Some d.
Proof. reflexivity. Qed.

Lemma field_is_stored_role s email lit :
  field_is (findOne [("email", CEq (param email))] (users s)) "userRole" lit
  = bool_decide (stored_role s email = Some (VStr lit)).
Proof.
  unfold stored_role.
  destruct (findOne _ (users s)) as [u |]; simpl; [| reflexivity].
  reflexivity.
Qed.

Lemma verifyAdmin_spec next req s d :
  decoded req = Some d ->
  verifyAdmin next req s =
    if bool_decide (stored_role s (claim_email d) = Some (VStr "admin"))
    then next req s else forbidden s.
Proof.
  intros H. unfold verifyAdmin. rewrite H, field_is_stored_role.
  now case_bool_decide.
Qed.

Lemma verifySeller_spec next req s d :
  decoded req = Some d ->
  verifySeller next req s =
    if bool_decide (stored_role s (claim_email d) = Some (VStr "seller"))
    then next req s else forbidden s.
Proof.
  intros H. unfold verifySeller. rewrite H, field_is_stored_role.
  now case_bool_decide.
Qed.

(** C1, as amended.  On a route behind the authentication middleware a
    request without an Authorization header, or with an empty one, is
    answered 401, and a request whose non-empty header ends in a token that
    fails verification is answered 403.  In both cases the answer and the
    database are the same whatever comes next in the chain: the handler is
    not run. *)
Theorem guarded_route_rejects (g : guard) (next : handler) (req : request) (s : db) :
  g <> Open ->
  (authorization req = None \/ authorization req = Some "" ->
   run g next req s = unauthorized s) /\
  (forall h, has_header req h -> h <> "" ->
             token_rejected ACCESS_TOKEN jws_verify e h ->
             run g next req s = forbidden s).
Proof.
  intros Hg. split.
  - intros H.
    destruct g; simpl; try contradiction;
      destruct H; auto using verifyToken_absent, verifyToken_empty.
  - intros h H Hne Hrej.
    destruct g; simpl; try contradiction; eauto using verifyToken_rejected.
Qed.

(** C2.  Behind the token check, a route reserved to a role looks up the user
    record by the email decoded from the token and answers 403, whatever
    the handler, as soon as the stored role is not the required one; a
    missing record has no stored role.  So the token of an admin does not
    pass a seller route, nor that of a seller an admin route. *)
Theorem role_check_rejects (next : handler) (req : request) (s : db) (d : claims) :
  authentic req d ->
  (stored_role s (claim_email d) <> Some (VStr "admin") ->
   run TokenAdmin next req s = forbidden s) /\
  (stored_role s (claim_email d) <> Some (VStr "seller") ->
   run TokenSeller next req s = forbidden s) /\
  (findOne [("email", CEq (param (claim_email d)))] (users s) = None ->
   run TokenAdmin next req s = forbidden s /\
   run TokenSeller next req s = forbidden s) /\
  (stored_role s (claim_email d) = Some (VStr "admin") ->
   run TokenSeller next req s = forbidden s) /\
  (stored_role s (claim_email d) = Some (VStr "seller") ->
   run TokenAdmin next req s = forbidden s).
Proof.
  intros Hd.
  assert (HA : stored_role s (claim_email d) <> Some (VStr "admin") ->
               run TokenAdmin next req s = forbidden s).
  { intros Hr. simpl. rewrite (verifyToken_pass _ _ _ _ Hd).
    rewrite (verifyAdmin_spec _ _ _ d) by apply decoded_with_decoded.
    now case_bool_decide. }
  assert (HS : stored_role s (claim_email d) <> Some (VStr "seller") ->
               run TokenSeller next req s = forbidden s).
  { intros Hr. simpl. rewrite (verifyToken_pass _ _ _ _ Hd).
    rewrite (verifySeller_spec _ _ _ d) by apply decoded_with_decoded.
    now case_bool_decide. }
  split; [exact HA |]. split; [exact HS |]. split; [| split].
  - intros Hnone.
    assert (Hrole : forall lit, stored_role s (claim_email d) <> Some (VStr lit)).
    { intros lit. unfold stored_role. rewrite Hnone. discriminate. }
    split; [apply HA | apply HS]; apply Hrole.
  - intros Hr. apply HS. rewrite Hr. discriminate.
  - intros Hr. apply HA. rewrite Hr. discriminate.
Qed.

End Middleware.

(** C1, as stated, fails on a request whose Authorization header is present
    and empty: the token taken from it fails verification, but the check
    [!authHeader] has already answered 401. *)
Lemma empty_header_answered_401 :
  let req := Sample.with_header "" Sample.request0 in
  has_header req "" /\
  token_rejected Sample.key Sample.reject_all Sample.clock "" /\
  chain Sample.key Sample.reject_all Sample.clock Token Sample.marker req Sample.shop
    = unauthorized Sample.shop /\
  chain Sample.key Sample.reject_all Sample.clock Token Sample.marker req Sample.shop
    <> forbidden Sample.shop.
Proof.
  repeat split; discriminate.
Qed.

Lemma guarded_route_rejects_witness :
  Token <> Open /\
  chain Sample.key Sample.reject_all Sample.clock Token Sample.marker
    Sample.request0 Sample.shop = unauthorized Sample.shop /\
  chain Sample.key Sample.reject_all Sample.clock Token Sample.marker
    (Sample.with_header "Bearer abc" Sample.request0) Sample.shop = forbidden Sample.shop.
Proof.
  assert (Hg : Token <> Open) by discriminate.
  split; [exact Hg |].
  split.
  - apply (guarded_route_rejects Sample.key Sample.reject_all Sample.clock
             Token Sample.marker Sample.request0 Sample.shop Hg).
    left. reflexivity.
  - apply (guarded_route_rejects Sample.key Sample.reject_all Sample.clock
             Token Sample.marker (Sample.with_header "Bearer abc" Sample.request0)
             Sample.shop Hg) with (h := "Bearer abc").
    + reflexivity.
    + discriminate.
    + reflexivity.
Defined.

Lemma role_check_rejects_witness :
  let req := Sample.with_header "Bearer bob@x.io" Sample.request0 in
  let d := {| claim_email := Some "bob@x.io"; iat := 0; exp := None |} in
  authenticated Sample.key Sample.toy_verify Sample.clock req d /\
  stored_role Sample.shop (claim_email d) <> Some (VStr "admin") /\
  chain Sample.key Sample.toy_verify Sample.clock TokenAdmin Sample.marker req Sample.shop
    = forbidden Sample.shop.
Proof.
  intros req d.
  assert (Hd : authenticated Sample.key Sample.toy_verify Sample.clock req d).
  { exists "Bearer bob@x.io". repeat split. discriminate. }
  assert (Hr : stored_role Sample.shop (claim_email d) <> Some (VStr "admin")).
  { vm_compute. discriminate. }
  split; [exact Hd |]. split; [exact Hr |].
  exact (proj1 (role_check_rejects Sample.key Sample.toy_verify Sample.clock
                  Sample.marker req Sample.shop d Hd) Hr).
Defined.

(** ** The routes *)

Section Routes.

Variable ACCESS_TOKEN : string.
Variable jws_sign : string -> claims -> string.
Variable jws_verify : string -> string -> option claims.
Variable ObjectId : string -> option oid.
Variable regex : string -> option (string -> bool).
Variable e : env.

Local Abbreviation app := (serve ACCESS_TOKEN jws_sign jws_verify ObjectId regex e).
Local Abbreviation authentic := (authenticated ACCESS_TOKEN jws_verify e).

Lemma serve_token r req s d :
  guard_of r = Token -> authentic req d ->
  app r req s = handler_of ACCESS_TOKEN jws_sign ObjectId regex e r (with_decoded req d) s.
Proof.
  intros Hg Hd. unfold serve. rewrite Hg. simpl.
  now apply verifyToken_pass.
Qed.

Lemma no_record_findOne email docs :
  (forall u, In u docs -> u !! "email" <> Some (VStr email)) ->
  findOne [("email", CEq (VStr email))] docs = None.
Proof.
  intros H. apply findOne_None. intros u Hu.
  apply not_true_is_false. rewrite matches_eq_field.
  intros [Hm | [_ [=]]]. exact (H u Hu Hm).
Qed.

(** C10.  On the three role-status routes an email without a user record
    is answered with status 200 and the boolean [false]; a user that exists
    under another role gets the very same answer. *)
Theorem role_status_of_unknown_user (req : request) (s : db) (d : claims) :
  authentic req d ->
  (forall u, In u (users s) -> u !! "email" <> Some (VStr (params_email req))) ->
  app GET_users_admin_email req s = (s, Sent 200 (IsAdmin false)) /\
  app GET_users_buyer_email req s = (s, Sent 200 (IsBuyer false)) /\
  app GET_users_seller_email req s = (s, Sent 200 (IsSeller false)) /\
  (forall s' u,
     findOne [("email", CEq (VStr (params_email req)))] (users s') = Some u ->
     (u !! "userRole" <> Some (VStr "admin") ->
      (app GET_users_admin_email req s').2 = (app GET_users_admin_email req s).2) /\
     (u !! "userRole" <> Some (VStr "buyer") ->
      (app GET_users_buyer_email req s').2 = (app GET_users_buyer_email req s).2) /\
     (u !! "userRole" <> Some (VStr "seller") ->
      (app GET_users_seller_email req s').2 = (app GET_users_seller_email req s).2)).
Proof.
  intros Hd Hnone.
  pose proof (no_record_findOne _ _ Hnone) as Hf.
  assert (HA : app GET_users_admin_email req s = (s, Sent 200 (IsAdmin false))).
  { rewrite (serve_token _ _ _ d) by easy. simpl.
    unfold get_users_admin_email. simpl. now rewrite Hf. }
  assert (HB : app GET_users_buyer_email req s = (s, Sent 200 (IsBuyer false))).
  { rewrite (serve_token _ _ _ d) by easy. simpl.
    unfold get_users_buyer_email. simpl. now rewrite Hf. }
  assert (HS : app GET_users_seller_email req s = (s, Sent 200 (IsSeller false))).
  { rewrite (serve_token _ _ _ d) by easy. simpl.
    unfold get_users_seller_email. simpl. now rewrite Hf. }
  split; [exact HA |]. split; [exact HB |]. split; [exact HS |].
  intros s' u Hfound. rewrite HA, HB, HS.
  repeat split; intros Hrole;
    rewrite (serve_token _ _ _ d) by easy; simpl;
    unfold get_users_admin_email, get_users_buyer_email, get_users_seller_email;
    simpl; rewrite Hfound; simpl; now rewrite bool_decide_eq_false_2.
Qed.

Lemma found_by_email docs u v :
  In u docs -> u !! "email" = Some v ->
  exists w, findOne [("email", CEq v)] docs = Some w.
Proof.
  intros Hu Hv. apply (findOne_exists _ _ u Hu).
  apply matches_eq_field. now left.
Qed.

(** C5.  POST /users with a body whose email is that of a stored user is
    answered 200 with the message "User already exists!", and the database
    comes out as it went in: nothing is inserted and no record changes. *)
Theorem post_users_existing (req : request) (s : db) (v : value) (u : document) :
  body req !! "email" = Some v ->
  In u (users s) ->
  u !! "email" = Some v ->
  app POST_users req s = (s, Sent 200 (Message "User already exists!")).
Proof.
  intros Hb Hu Hv. unfold serve; simpl. unfold post_users.
  assert (Hq : body_field
                 (if negb (truthy (body req !! "userRole"))
                  then <["userRole" := VStr "buyer"]> (body req) else body req)
                 "email" = v).
  { unfold body_field. destruct (negb _).
    - rewrite lookup_insert_ne by discriminate. now rewrite Hb.
    - now rewrite Hb. }
  rewrite Hq.
  destruct (found_by_email _ _ _ Hu Hv) as [w Hw]. now rewrite Hw.
Qed.

(** C6.  GET /jwt?email=X is answered 401 when no user record has the email
    X.  When one has, the answer carries a token signed with the server's
    key over claims whose email is X, issued now and expiring 10 hours
    (36000 seconds) later. *)
Theorem get_jwt_issues (req : request) (s : db) (X : string) :
  query_email req = Some X ->
  ((forall u, In u (users s) -> u !! "email" <> Some (VStr X)) ->
   app GET_jwt req s = (s, Sent 401 (Message "Unauthorized access"))) /\
  (forall u, In u (users s) -> u !! "email" = Some (VStr X) ->
   exists c,
     app GET_jwt req s = (s, Sent 200 (AccessToken (jws_sign ACCESS_TOKEN c))) /\
     claim_email c = Some X /\
     iat c = now e /\
     exp c = Some (iat c + 10 * 3600)).
Proof.
  intros Hq. unfold serve; simpl. unfold get_jwt. rewrite Hq. simpl. split.
  - intros Hnone. now rewrite (no_record_findOne _ _ Hnone).
  - intros u Hu Hv. destruct (found_by_email _ _ _ Hu Hv) as [w Hw].
    rewrite Hw. eexists. split; [reflexivity |]. simpl. auto.
Qed.

(** A token issued by GET /jwt passes [jwt.verify] for exactly ten hours,
    provided verification inverts signing under the same key. *)
Lemma issued_token_lifetime (email : option string) (token : string) (later : env) :
  (forall c, jws_verify ACCESS_TOKEN (jws_sign ACCESS_TOKEN c) = Some c) ->
  jwt_sign jws_sign e email ACCESS_TOKEN "10h" = Some token ->
  jwt_verify jws_verify later token ACCESS_TOKEN =
    if now e + 36000 <=? now later then None
    else Some {| claim_email := email; iat := now e; exp := Some (now e + 36000) |}.
Proof.
  intros Hinv [= <-]. unfold jwt_verify. now rewrite Hinv.
Qed.

(** C8, as amended.  GET /categories with a limit that reads as a positive
    integer N answers the first N category documents, so at most N of them;
    without a limit it answers every category document. *)
Theorem get_categories_limit (req : request) (s : db) :
  (forall lim n,
     query_limit req = Some lim -> parseInt lim = Int n -> 0 < n ->
     exists docs,
       app GET_categories req s = (s, Sent 200 (Documents docs)) /\
       docs = take (Z.to_nat n) (categories s) /\
       Z.of_nat (length docs) <= n) /\
  (query_limit req = None ->
   app GET_categories req s = (s, Sent 200 (Documents (categories s)))).
Proof.
  unfold serve; simpl. unfold get_categories. split.
  - intros lim n Hq Hp Hn. rewrite Hq. unfold to_string. rewrite Hp.
    rewrite find_all. cbn [truthy_num limit].
    assert ((n =? 0) = false) as -> by lia. cbn [negb].
    replace (Z.abs_nat n) with (Z.to_nat n) by lia.
    eexists. split; [reflexivity |]. split; [reflexivity |].
    rewrite length_take. lia.
  - intros Hq. rewrite Hq. unfold to_string.
    rewrite (parseInt_of_absent_parameter : parseInt "undefined" = NaN).
    simpl. now rewrite find_all.
Qed.

(** A limit that reads as zero, or as no number at all, is no limit. *)
Lemma get_categories_falsy_limit (req : request) (s : db) :
  truthy_num (parseInt (to_string (query_limit req))) = false ->
  app GET_categories req s = (s, Sent 200 (Documents (categories s))).
Proof.
  intros H. unfold serve; simpl. unfold get_categories.
  rewrite H. now rewrite find_all.
Qed.

Lemma matches_category test p :
  matches [("category", CRegex test); ("isSold", CEq (VBool false))] p
  = unsold_in_category test p.
Proof.
  unfold matches, unsold_in_category. simpl. rewrite andb_true_r. f_equal.
  destruct (p !! "isSold") as [w |]; [| reflexivity].
  apply bool_decide_ext; split; congruence.
Qed.

Lemma find_category test docs :
  find [("category", CRegex test); ("isSold", CEq (VBool false))] docs
  = List.filter (unsold_in_category test) docs.
Proof. apply List.filter_ext. intros p. apply matches_category. Qed.

(** A pattern the engine rejects leaves the request without an answer. *)
Lemma get_categories_id_rejected (req : request) (s : db) (d : claims) :
  authentic req d ->
  regex (params_id req) = None ->
  app GET_categories_id req s = (s, Crashed).
Proof.
  intros Hd Hr. rewrite (serve_token _ _ _ d) by easy. simpl.
  unfold get_categories_id. simpl. now rewrite Hr.
Qed.

(** C4, as amended.  An authenticated GET /categories/:id answers exactly
    the products whose [isSold] is [false] and whose [category] is a string
    that matches :id read as a regular expression, in the order of the
    collection.  When :id has no special character, matching it is
    containing it as a substring. *)
Theorem get_categories_id_filters (req : request) (s : db) (d : claims) :
  authentic req d ->
  (forall test,
     regex (params_id req) = Some test ->
     app GET_categories_id req s
     = (s, Sent 200 (Documents (List.filter (unsold_in_category test) (products s))))) /\
  (no_meta (params_id req) = true ->
   serve ACCESS_TOKEN jws_sign jws_verify ObjectId pcre e GET_categories_id req s
   = (s, Sent 200 (Documents
            (List.filter (unsold_in_category (includes (params_id req))) (products s))))).
Proof.
  intros Hd. split.
  - intros test Hr. rewrite (serve_token _ _ _ d) by easy. simpl.
    unfold get_categories_id. simpl. rewrite Hr. now rewrite find_category.
  - intros Hplain. destruct (pcre_literal _ Hplain) as (test & Hp & Hsub).
    unfold serve. simpl. rewrite (verifyToken_pass _ _ _ _ _ _ d Hd).
    unfold get_categories_id. simpl. rewrite Hp, find_category.
    unfold send. do 3 f_equal. apply List.filter_ext. intros p.
    unfold unsold_in_category. destruct (p !! "category") as [[| | | c |] |]; try reflexivity.
    now rewrite Hsub.
Qed.

Lemma serve_seller r req s d :
  guard_of r = TokenSeller -> authentic req d ->
  stored_role s (claim_email d) = Some (VStr "seller") ->
  app r req s = handler_of ACCESS_TOKEN jws_sign ObjectId regex e r (with_decoded req d) s.
Proof.
  intros Hg Hd Hr. unfold serve. rewrite Hg. simpl.
  rewrite (verifyToken_pass _ _ _ _ _ _ d Hd).
  rewrite (verifySeller_spec _ _ _ d) by reflexivity.
  now rewrite bool_decide_eq_true_2.
Qed.

Lemma serve_admin r req s d :
  guard_of r = TokenAdmin -> authentic req d ->
  stored_role s (claim_email d) = Some (VStr "admin") ->
  app r req s = handler_of ACCESS_TOKEN jws_sign ObjectId regex e r (with_decoded req d) s.
Proof.
  intros Hg Hd Hr. unfold serve. rewrite Hg. simpl.
  rewrite (verifyToken_pass _ _ _ _ _ _ d Hd).
  rewrite (verifyAdmin_spec _ _ _ d) by reflexivity.
  now rewrite bool_decide_eq_true_2.
Qed.

Lemma with_products_same s : with_products s (products s) = s.
Proof. now destruct s. Qed.

(** C7.  DELETE /products/:id?email=E by an authenticated seller removes
    the product with that id exactly when its [sellerEmail] is E.  When it
    is not, the answer is an ordinary result with a deleted count of zero
    and the database is unchanged. *)
Theorem delete_products_id_owner
    (req : request) (s : db) (d : claims) (o : oid) (E : string) (p : document) :
  authentic req d ->
  stored_role s (claim_email d) = Some (VStr "seller") ->
  ObjectId (params_id req) = Some o ->
  query_email req = Some E ->
  unique_ids (products s) ->
  In p (products s) ->
  p !! "_id" = Some (VId o) ->
  (~ In p (products (app DELETE_products_id req s).1)
   <-> p !! "sellerEmail" = Some (VStr E)) /\
  (p !! "sellerEmail" = Some (VStr E) ->
   exists l1 l2,
     products s = (l1 ++ p :: l2)%list /\
     app DELETE_products_id req s
     = (with_products s (l1 ++ l2)%list, Sent 200 (Deleted 1))) /\
  (p !! "sellerEmail" <> Some (VStr E) ->
   app DELETE_products_id req s = (s, Sent 200 (Deleted 0))).
Proof.
  intros Hd Hrole Ho Hq Hu Hp Hid.
  rewrite (serve_seller _ _ _ d) by easy. simpl.
  unfold delete_products_id. simpl. rewrite Ho, Hq. simpl.
  destruct (unique_ids_split _ _ Hu Hp) as (l1 & l2 & Hsplit & Hothers).
  assert (Hrest : forall x, In x (l1 ++ l2)%list ->
            matches [("sellerEmail", CEq (VStr E)); ("_id", CEq (VId o))] x = false).
  { intros x Hx. apply not_true_is_false. rewrite matches_owner.
    intros [_ Hxid]. apply (Hothers x Hx). congruence. }
  assert (Hnotin : ~ In p (l1 ++ l2)%list).
  { intros Hin. now apply (Hothers p Hin). }
  destruct (decide (p !! "sellerEmail" = Some (VStr E))) as [Hown | Hother].
  - assert (Hdel : deleteOne [("sellerEmail", CEq (VStr E)); ("_id", CEq (VId o))] (products s)
                   = ((l1 ++ l2)%list, 1%nat)).
    { rewrite Hsplit. apply deleteOne_first.
      - intros x Hx. apply Hrest. apply in_or_app. now left.
      - apply matches_owner. now split. }
    rewrite Hdel. simpl. split; [| split].
    + split; [intros _; exact Hown | intros _; exact Hnotin].
    + intros _. exists l1, l2. now split.
    + contradiction.
  - assert (Hdel : deleteOne [("sellerEmail", CEq (VStr E)); ("_id", CEq (VId o))] (products s)
                   = (products s, 0%nat)).
    { apply deleteOne_no_match. intros x Hx. rewrite Hsplit in Hx.
      apply in_app_or in Hx. destruct Hx as [Hx | [<- | Hx]].
      - apply Hrest. apply in_or_app. now left.
      - apply not_true_is_false. rewrite matches_owner. now intros [Hc _].
      - apply Hrest. apply in_or_app. now right. }
    rewrite Hdel. simpl. rewrite with_products_same. split; [| split].
    + split; [intros Hn; contradiction | intros Hc; contradiction].
    + contradiction.
    + reflexivity.
Qed.

(** C9, as amended.  PUT /products/advertisement/:id?email=E by an
    authenticated seller, when no product has both the id and the
    [sellerEmail] E: if no product carries the id at all, the upsert appends
    a new document made of that [_id], [sellerEmail] E and
    [isAdvertised = true]; if a product carries the id under another seller,
    the unique index on [_id] refuses the upsert, the request gets no answer
    and the database is unchanged. *)
Theorem advertise_without_match
    (req : request) (s : db) (d : claims) (o : oid) (E : string) :
  authentic req d ->
  stored_role s (claim_email d) = Some (VStr "seller") ->
  ObjectId (params_id req) = Some o ->
  query_email req = Some E ->
  (forall p, In p (products s) ->
             ~ (p !! "sellerEmail" = Some (VStr E) /\ p !! "_id" = Some (VId o))) ->
  ((forall p, In p (products s) -> p !! "_id" <> Some (VId o)) ->
   app PUT_products_advertisement_id req s
   = (with_products s (products s ++ [advertisement o (VStr E)])%list,
      Sent 200 (Updated {| matchedCount := 0; modifiedCount := 0;
                           upsertedCount := 1; upsertedId := Some (VId o) |}))) /\
  ((exists p, In p (products s) /\ p !! "_id" = Some (VId o)) ->
   app PUT_products_advertisement_id req s = (s, Crashed)).
Proof.
  intros Hd Hrole Ho Hq Hnone.
  rewrite (serve_seller _ _ _ d) by easy. simpl.
  unfold put_products_advertisement_id. simpl. rewrite Ho, Hq. simpl.
  rewrite updateOne_advertisement.
  2:{ intros p Hp. apply not_true_is_false. rewrite matches_owner. now apply Hnone. }
  split.
  - intros Hfree. apply has_id_false in Hfree. now rewrite Hfree.
  - intros Hused. apply has_id_true in Hused. rewrite Hused.
    unfold crash. now rewrite with_products_same.
Qed.

(** C3, as amended.  PUT /users/seller/:id?email=E by an authenticated
    admin, with an update that does not name [_id]: the user document found
    by :id gets the fields of the update; then every product whose
    [sellerEmail] is the query parameter E gets the same fields, and no
    product already stored under another [sellerEmail] is modified.  The
    email of the user document plays no part. *)
Theorem seller_update_cascades
    (req : request) (s : db) (d : claims) (o : oid) (E : string) :
  authentic req d ->
  stored_role s (claim_email d) = Some (VStr "admin") ->
  ObjectId (params_id req) = Some o ->
  query_email req = Some E ->
  body req !! "_id" = None ->
  let s' := (app PUT_users_seller_id req s).1 in
  (forall l1 u l2,
     users s = (l1 ++ u :: l2)%list ->
     u !! "_id" = Some (VId o) ->
     (forall x, In x l1 -> x !! "_id" <> Some (VId o)) ->
     users s' = (l1 ++ (body req ∪ u) :: l2)%list) /\
  (forall (i : nat) (p : document),
     products s !! i = Some p ->
     p !! "sellerEmail" = Some (VStr E) ->
     products s' !! i = Some (body req ∪ p)) /\
  (forall (i : nat) (p : document),
     products s !! i = Some p ->
     p !! "sellerEmail" <> Some (VStr E) ->
     products s' !! i = Some p).
Proof.
  intros Hd Hrole Ho Hq Hid s'. subst s'.
  rewrite (serve_admin _ _ _ d) by easy. simpl.
  unfold put_users_seller_id. simpl. rewrite Ho, Hq. simpl.
  destruct (updateOne_by_id_succeeds o (body req) (fresh e 0) (users s) Hid)
    as (us & r & Hus).
  pose proof (updateOne_by_id_rewrites o (body req) (fresh e 0)) as Hrw.
  rewrite Hus in *.
  destruct (updateMany_plain [("sellerEmail", CEq (VStr E))] (body req)
              (fresh e 1) (products s) Hid) as (extra & Hps).
  destruct (updateMany _ (body req) (fresh e 1) (products s)) as [ps [r' |]];
    simpl in Hps; subst ps; simpl.
  all: split; [| split].
  all: try (intros l1 u l2 Hsplit Hu Hl1;
            specialize (Hrw l1 u l2 Hid Hu Hl1);
            rewrite <- Hsplit, Hus in Hrw; exact Hrw).
  all: intros i p Hp Hs;
       apply lookup_app_l_Some;
       change (map ?f ?l) with (f <$> l);
       rewrite list_lookup_fmap, Hp; cbn [fmap option_fmap option_map]; f_equal.
  all: transitivity (if sold_by (Some E) p then body req ∪ p else p);
       [reflexivity |].
  all: destruct (sold_by (Some E) p) eqn:Hm; try reflexivity.
  all: try (exfalso; apply Hs; apply sold_by_spec; exact Hm).
  all: apply sold_by_spec in Hs; congruence.
Qed.

End Routes.

Lemma role_status_of_unknown_user_witness :
  let req := Sample.with_header "Bearer bob@x.io" Sample.request0 in
  let d := {| claim_email := Some "bob@x.io"; iat := 0; exp := None |} in
  authenticated Sample.key Sample.toy_verify Sample.clock req d /\
  (forall u, In u (users Sample.shop) -> u !! "email" <> Some (VStr (params_email req))) /\
  serve Sample.key Sample.toy_sign Sample.toy_verify Sample.toy_ObjectId pcre Sample.clock
    GET_users_admin_email req Sample.shop = (Sample.shop, Sent 200 (IsAdmin false)).
Proof.
  intros req d.
  assert (Hd : authenticated Sample.key Sample.toy_verify Sample.clock req d).
  { exists "Bearer bob@x.io". repeat split. discriminate. }
  assert (Hn : forall u, In u (users Sample.shop) ->
                         u !! "email" <> Some (VStr (params_email req))).
  { intros u [<- | [<- | []]]; vm_compute; discriminate. }
  split; [exact Hd |]. split; [exact Hn |].
  exact (proj1 (role_status_of_unknown_user Sample.key Sample.toy_sign Sample.toy_verify
                  Sample.toy_ObjectId pcre Sample.clock req Sample.shop d Hd Hn)).
Defined.

Lemma post_users_existing_witness :
  let req := {| authorization := None; params_id := ""; params_email := "";
                query_email := None; query_limit := None;
                body := {[ "email" := VStr "ann@x.io"; "userRole" := VStr "seller" ]};
                decoded := None |} in
  body req !! "email" = Some (VStr "ann@x.io") /\
  In Sample.ann (users Sample.shop) /\
  Sample.ann !! "email" = Some (VStr "ann@x.io") /\
  serve Sample.key Sample.toy_sign Sample.toy_verify Sample.toy_ObjectId pcre Sample.clock
    POST_users req Sample.shop = (Sample.shop, Sent 200 (Message "User already exists!")).
Proof.
  intros req.
  assert (H1 : body req !! "email" = Some (VStr "ann@x.io")) by reflexivity.
  assert (H2 : In Sample.ann (users Sample.shop)) by (left; reflexivity).
  assert (H3 : Sample.ann !! "email" = Some (VStr "ann@x.io")) by reflexivity.
  split; [exact H1 |]. split; [exact H2 |]. split; [exact H3 |].
  exact (post_users_existing Sample.key Sample.toy_sign Sample.toy_verify
           Sample.toy_ObjectId pcre Sample.clock req Sample.shop _ _ H1 H2 H3).
Defined.

Lemma get_jwt_issues_witness :
  let req := {| authorization := None; params_id := ""; params_email := "";
                query_email := Some "bob@x.io"; query_limit := None;
                body := ∅; decoded := None |} in
  query_email req = Some "bob@x.io" /\
  exists c,
    serve Sample.key Sample.toy_sign Sample.toy_verify Sample.toy_ObjectId pcre Sample.clock
      GET_jwt req Sample.shop
    = (Sample.shop, Sent 200 (AccessToken (Sample.toy_sign Sample.key c))) /\
    claim_email c = Some "bob@x.io" /\
    iat c = now Sample.clock /\
    exp c = Some (iat c + 10 * 3600).
Proof.
  intros req.
  assert (Hq : query_email req = Some "bob@x.io") by reflexivity.
  split; [exact Hq |].
  refine (proj2 (get_jwt_issues Sample.key Sample.toy_sign Sample.toy_verify
                   Sample.toy_ObjectId pcre Sample.clock req Sample.shop _ Hq)
            Sample.bob _ _).
  - right; left; reflexivity.
  - reflexivity.
Defined.

(** A limit written after a no-break space is read like any other. *)
Example get_categories_after_no_break_space :
  let req := {| authorization := None; params_id := ""; params_email := "";
                query_email := None;
                query_limit := Some (String "194" (String "160" "2"));
                body := ∅; decoded := None |} in
  let s := {| categories := [Sample.cat1; Sample.cat2; Sample.ann];
              users := []; products := [] |} in
  serve Sample.key Sample.toy_sign Sample.toy_verify Sample.toy_ObjectId pcre Sample.clock
    GET_categories req s = (s, Sent 200 (Documents [Sample.cat1; Sample.cat2])).
Proof. reflexivity. Qed.

(** C8, as stated, fails for [limit=0]: the parameter is supplied, and the
    answer holds one document, which is more than zero. *)
Lemma limit_zero_is_no_limit :
  let req := {| authorization := None; params_id := ""; params_email := "";
                query_email := None; query_limit := Some "0";
                body := ∅; decoded := None |} in
  parseInt "0" = Int 0 /\
  serve Sample.key Sample.toy_sign Sample.toy_verify Sample.toy_ObjectId pcre Sample.clock
    GET_categories req Sample.shop = (Sample.shop, Sent 200 (Documents [Sample.cat1])) /\
  ~ (Z.of_nat (length [Sample.cat1]) <= 0).
Proof.
  split; [reflexivity |]. split; [reflexivity |]. simpl. lia.
Qed.

Lemma get_categories_limit_witness :
  let req := {| authorization := None; params_id := ""; params_email := "";
                query_email := None; query_limit := Some "1";
                body := ∅; decoded := None |} in
  let s := {| categories := [Sample.cat1; Sample.cat2]; users := []; products := [] |} in
  query_limit req = Some "1" /\ parseInt "1" = Int 1 /\ 0 < 1 /\
  exists docs,
    serve Sample.key Sample.toy_sign Sample.toy_verify Sample.toy_ObjectId pcre Sample.clock
      GET_categories req s = (s, Sent 200 (Documents docs)) /\
    docs = take (Z.to_nat 1) (categories s) /\
    Z.of_nat (length docs) <= 1.
Proof.
  intros req s.
  assert (H1 : query_limit req = Some "1") by reflexivity.
  assert (H2 : parseInt "1" = Int 1) by reflexivity.
  assert (H3 : 0 < 1) by lia.
  split; [exact H1 |]. split; [exact H2 |]. split; [exact H3 |].
  exact (proj1 (get_categories_limit Sample.key Sample.toy_sign Sample.toy_verify
                  Sample.toy_ObjectId pcre Sample.clock req s) "1" 1 H1 H2 H3).
Defined.

(** C4, as stated, fails for the category id [.]: no category contains a
    dot, yet every unsold product with a non-empty category is answered. *)
Lemma dot_matches_every_category :
  let req := {| authorization := Some "Bearer bob@x.io"; params_id := ".";
                params_email := ""; query_email := None; query_limit := None;
                body := ∅; decoded := None |} in
  authenticated Sample.key Sample.toy_verify Sample.clock req
    {| claim_email := Some "bob@x.io"; iat := 0; exp := None |} /\
  serve Sample.key Sample.toy_sign Sample.toy_verify Sample.toy_ObjectId pcre Sample.clock
    GET_categories_id req Sample.shop
  = (Sample.shop, Sent 200 (Documents [Sample.drill; Sample.saw])) /\
  List.filter (unsold_in_category (includes ".")) (products Sample.shop) = [].
Proof.
  split; [| split].
  - exists "Bearer bob@x.io". repeat split. discriminate.
  - vm_compute. reflexivity.
  - vm_compute. reflexivity.
Qed.

Lemma get_categories_id_filters_witness :
  let req := {| authorization := Some "Bearer bob@x.io"; params_id := "ool";
                params_email := ""; query_email := None; query_limit := None;
                body := ∅; decoded := None |} in
  let d := {| claim_email := Some "bob@x.io"; iat := 0; exp := None |} in
  authenticated Sample.key Sample.toy_verify Sample.clock req d /\
  no_meta (params_id req) = true /\
  serve Sample.key Sample.toy_sign Sample.toy_verify Sample.toy_ObjectId pcre Sample.clock
    GET_categories_id req Sample.shop
  = (Sample.shop, Sent 200 (Documents
       (List.filter (unsold_in_category (includes "ool")) (products Sample.shop)))).
Proof.
  intros req d.
  assert (Hd : authenticated Sample.key Sample.toy_verify Sample.clock req d).
  { exists "Bearer bob@x.io". repeat split. discriminate. }
  assert (Hp : no_meta (params_id req) = true) by reflexivity.
  split; [exact Hd |]. split; [exact Hp |].
  exact (proj2 (get_categories_id_filters Sample.key Sample.toy_sign Sample.toy_verify
                  Sample.toy_ObjectId pcre Sample.clock req Sample.shop d Hd) Hp).
Defined.

Lemma delete_products_id_owner_witness :
  let req := {| authorization := Some "Bearer bob@x.io"; params_id := Sample.id_p;
                params_email := ""; query_email := Some "bob@x.io";
                query_limit := None; body := ∅; decoded := None |} in
  let d := {| claim_email := Some "bob@x.io"; iat := 0; exp := None |} in
  authenticated Sample.key Sample.toy_verify Sample.clock req d /\
  stored_role Sample.shop (claim_email d) = Some (VStr "seller") /\
  Sample.toy_ObjectId (params_id req) = Some Sample.id_p /\
  query_email req = Some "bob@x.io" /\
  unique_ids (products Sample.shop) /\
  In Sample.drill (products Sample.shop) /\
  Sample.drill !! "_id" = Some (VId Sample.id_p) /\
  (~ In Sample.drill
       (products (serve Sample.key Sample.toy_sign Sample.toy_verify Sample.toy_ObjectId
                    pcre Sample.clock DELETE_products_id req Sample.shop).1)
   <-> Sample.drill !! "sellerEmail" = Some (VStr "bob@x.io")).
Proof.
  intros req d.
  assert (H1 : authenticated Sample.key Sample.toy_verify Sample.clock req d).
  { exists "Bearer bob@x.io". repeat split. discriminate. }
  assert (H2 : stored_role Sample.shop (claim_email d) = Some (VStr "seller")) by reflexivity.
  assert (H3 : Sample.toy_ObjectId (params_id req) = Some Sample.id_p) by reflexivity.
  assert (H4 : query_email req = Some "bob@x.io") by reflexivity.
  assert (H5 : unique_ids (products Sample.shop)).
  { unfold unique_ids. simpl. apply NoDup_cons. split; [| apply NoDup_singleton].
    intros Hin. apply list_elem_of_singleton in Hin. discriminate. }
  assert (H6 : In Sample.drill (products Sample.shop)) by (left; reflexivity).
  assert (H7 : Sample.drill !! "_id" = Some (VId Sample.id_p)) by reflexivity.
  split; [exact H1 |]. split; [exact H2 |]. split; [exact H3 |]. split; [exact H4 |].
  split; [exact H5 |]. split; [exact H6 |]. split; [exact H7 |].
  exact (proj1 (delete_products_id_owner Sample.key Sample.toy_sign Sample.toy_verify
                  Sample.toy_ObjectId pcre Sample.clock req Sample.shop d Sample.id_p
                  "bob@x.io" Sample.drill H1 H2 H3 H4 H5 H6 H7)).
Defined.

(** C9, as stated, fails when the id is that of another seller's product:
    no product has both the id and the [sellerEmail], yet nothing is
    inserted, the collection is unchanged and the request gets no answer. *)
Lemma advertise_foreign_product_crashes :
  let req := {| authorization := Some "Bearer bob@x.io"; params_id := Sample.id_q;
                params_email := ""; query_email := Some "bob@x.io";
                query_limit := None; body := ∅; decoded := None |} in
  let d := {| claim_email := Some "bob@x.io"; iat := 0; exp := None |} in
  authenticated Sample.key Sample.toy_verify Sample.clock req d /\
  stored_role Sample.shop (claim_email d) = Some (VStr "seller") /\
  (forall p, In p (products Sample.shop) ->
             ~ (p !! "sellerEmail" = Some (VStr "bob@x.io") /\
                p !! "_id" = Some (VId Sample.id_q))) /\
  serve Sample.key Sample.toy_sign Sample.toy_verify Sample.toy_ObjectId pcre Sample.clock
    PUT_products_advertisement_id req Sample.shop = (Sample.shop, Crashed).
Proof.
  intros req d. split; [| split; [| split]].
  - exists "Bearer bob@x.io". repeat split. discriminate.
  - reflexivity.
  - intros p [<- | [<- | []]] [Hs Hi]; vm_compute in Hs, Hi; discriminate.
  - vm_compute. reflexivity.
Qed.

Lemma advertise_without_match_witness :
  let req := {| authorization := Some "Bearer bob@x.io";
                params_id := "6370000000000000000000e5";
                params_email := ""; query_email := Some "bob@x.io";
                query_limit := None; body := ∅; decoded := None |} in
  let d := {| claim_email := Some "bob@x.io"; iat := 0; exp := None |} in
  let o := "6370000000000000000000e5" in
  authenticated Sample.key Sample.toy_verify Sample.clock req d /\
  stored_role Sample.shop (claim_email d) = Some (VStr "seller") /\
  Sample.toy_ObjectId (params_id req) = Some o /\
  query_email req = Some "bob@x.io" /\
  (forall p, In p (products Sample.shop) ->
             ~ (p !! "sellerEmail" = Some (VStr "bob@x.io") /\ p !! "_id" = Some (VId o))) /\
  (forall p, In p (products Sample.shop) -> p !! "_id" <> Some (VId o)) /\
  serve Sample.key Sample.toy_sign Sample.toy_verify Sample.toy_ObjectId pcre Sample.clock
    PUT_products_advertisement_id req Sample.shop
  = (with_products Sample.shop
       (products Sample.shop ++ [advertisement o (VStr "bob@x.io")])%list,
     Sent 200 (Updated {| matchedCount := 0; modifiedCount := 0;
                          upsertedCount := 1; upsertedId := Some (VId o) |})).
Proof.
  intros req d o.
  assert (H1 : authenticated Sample.key Sample.toy_verify Sample.clock req d).
  { exists "Bearer bob@x.io". repeat split. discriminate. }
  assert (H2 : stored_role Sample.shop (claim_email d) = Some (VStr "seller")) by reflexivity.
  assert (H3 : Sample.toy_ObjectId (params_id req) = Some o) by reflexivity.
  assert (H4 : query_email req = Some "bob@x.io") by reflexivity.
  assert (H6 : forall p, In p (products Sample.shop) -> p !! "_id" <> Some (VId o)).
  { intros p [<- | [<- | []]]; vm_compute; discriminate. }
  assert (H5 : forall p, In p (products Sample.shop) ->
                 ~ (p !! "sellerEmail" = Some (VStr "bob@x.io") /\ p !! "_id" = Some (VId o))).
  { intros p Hp [_ Hi]. exact (H6 p Hp Hi). }
  split; [exact H1 |]. split; [exact H2 |]. split; [exact H3 |]. split; [exact H4 |].
  split; [exact H5 |]. split; [exact H6 |].
  exact (proj1 (advertise_without_match Sample.key Sample.toy_sign Sample.toy_verify
                  Sample.toy_ObjectId pcre Sample.clock req Sample.shop d o "bob@x.io"
                  H1 H2 H3 H4 H5) H6).
Defined.

(** C3, as stated, fails when the query parameter is not the email of the
    user named by :id.  The update of the user bob is asked with
    [email=ann@x.io]: the product sold by bob is left as it was, and the
    product sold by ann is rewritten. *)
Lemma cascade_follows_query_email :
  let req := {| authorization := Some "Bearer ann@x.io"; params_id := Sample.id_b;
                params_email := ""; query_email := Some "ann@x.io";
                query_limit := None; body := {[ "userRole" := VStr "seller" ]};
                decoded := None |} in
  let d := {| claim_email := Some "ann@x.io"; iat := 0; exp := None |} in
  let out := serve Sample.key Sample.toy_sign Sample.toy_verify Sample.toy_ObjectId pcre
               Sample.clock PUT_users_seller_id req Sample.shop in
  authenticated Sample.key Sample.toy_verify Sample.clock req d /\
  stored_role Sample.shop (claim_email d) = Some (VStr "admin") /\
  findOne [("_id", CEq (VId Sample.id_b))] (users Sample.shop) = Some Sample.bob /\
  Sample.bob !! "email" = Some (VStr "bob@x.io") /\
  products Sample.shop = [Sample.drill; Sample.saw] /\
  Sample.drill !! "sellerEmail" = Some (VStr "bob@x.io") /\
  Sample.saw !! "sellerEmail" = Some (VStr "ann@x.io") /\
  products out.1 = [Sample.drill; <["userRole" := VStr "seller"]> Sample.saw] /\
  <["userRole" := VStr "seller"]> Sample.saw <> Sample.saw.
Proof.
  intros req d out.
  split. { exists "Bearer ann@x.io". repeat split. discriminate. }
  do 6 (split; [reflexivity |]).
  split.
  - vm_compute. reflexivity.
  - intros H. apply (f_equal (fun m : document => m !! "userRole")) in H.
    vm_compute in H. discriminate.
Qed.

Lemma seller_update_cascades_witness :
  let req := {| authorization := Some "Bearer ann@x.io"; params_id := Sample.id_b;
                params_email := ""; query_email := Some "bob@x.io";
                query_limit := None; body := {[ "userRole" := VStr "seller" ]};
                decoded := None |} in
  let d := {| claim_email := Some "ann@x.io"; iat := 0; exp := None |} in
  let s' := (serve Sample.key Sample.toy_sign Sample.toy_verify Sample.toy_ObjectId pcre
               Sample.clock PUT_users_seller_id req Sample.shop).1 in
  authenticated Sample.key Sample.toy_verify Sample.clock req d /\
  stored_role Sample.shop (claim_email d) = Some (VStr "admin") /\
  Sample.toy_ObjectId (params_id req) = Some Sample.id_b /\
  query_email req = Some "bob@x.io" /\
  body req !! "_id" = None /\
  products s' !! 0%nat = Some (body req ∪ Sample.drill) /\
  products s' !! 1%nat = Some Sample.saw.
Proof.
  intros req d s'.
  assert (H1 : authenticated Sample.key Sample.toy_verify Sample.clock req d).
  { exists "Bearer ann@x.io". repeat split. discriminate. }
  assert (H2 : stored_role Sample.shop (claim_email d) = Some (VStr "admin")) by reflexivity.
  assert (H3 : Sample.toy_ObjectId (params_id req) = Some Sample.id_b) by reflexivity.
  assert (H4 : query_email req = Some "bob@x.io") by reflexivity.
  assert (H5 : body req !! "_id" = None) by reflexivity.
  split; [exact H1 |]. split; [exact H2 |]. split; [exact H3 |]. split; [exact H4 |].
  split; [exact H5 |].
  destruct (seller_update_cascades Sample.key Sample.toy_sign Sample.toy_verify
              Sample.toy_ObjectId pcre Sample.clock req Sample.shop d Sample.id_b
              "bob@x.io" H1 H2 H3 H4 H5) as (_ & Hown & Hother).
  split.
  - apply (Hown 0%nat Sample.drill); reflexivity.
  - apply (Hother 1%nat Sample.saw); [reflexivity |].
    vm_compute. discriminate.
Defined.

(** The cascade of PUT /users/seller/:id runs with [upsert]: when no product
    is sold under the query email, a product document is created. *)
Example cascade_creates_product :
  let req := {| authorization := Some "Bearer ann@x.io"; params_id := Sample.id_b;
                params_email := ""; query_email := Some "zed@x.io";
                query_limit := None; body := {[ "userRole" := VStr "seller" ]};
                decoded := None |} in
  products (serve Sample.key Sample.toy_sign Sample.toy_verify Sample.toy_ObjectId pcre
              Sample.clock PUT_users_seller_id req Sample.shop).1
  = [Sample.drill; Sample.saw;
     {[ "_id" := VId (fresh Sample.clock 1); "sellerEmail" := VStr "zed@x.io";
        "userRole" := VStr "seller" ]}].
Proof. vm_compute. reflexivity. Qed.

(** A token issued for bob is accepted by the middleware of a seller route,
    and the handler then runs. *)
Example seller_token_reaches_handler :
  chain Sample.key Sample.toy_verify Sample.clock TokenSeller Sample.marker
    (Sample.with_header "Bearer bob@x.io" Sample.request0) Sample.shop
  = (with_products (with_users {| categories := []; users := []; products := [] |}
                      (users Sample.shop)) (products Sample.shop),
     Sent 200 StatusText).
Proof. reflexivity. Qed.

(** * Further properties of the routes *)

Example stamp_round_trip :
  Stamp.verify "k1" (Stamp.sign "k1" {| claim_email := Some "a.b@x.io"; iat := 1000; exp := Some 37000 |})
  = Some {| claim_email := Some "a.b@x.io"; iat := 1000; exp := Some 37000 |}.
Proof. vm_compute. reflexivity. Qed.

Example stamp_other_key :
  Stamp.verify "k2" (Stamp.sign "k1" {| claim_email := Some "a@x.io"; iat := 1000; exp := Some 37000 |})
  = None.
Proof. vm_compute. reflexivity. Qed.

(** ** The Authorization header *)

Lemma string_app_cons c (s t : string) : String c s +:+ t = String c (s +:+ t).
Proof. reflexivity. Qed.

Lemma string_app_nil_r (s : string) : s +:+ "" = s.
Proof.
  induction s as [| c s IH]; [reflexivity |].
  now rewrite string_app_cons, IH.
Qed.

Lemma string_app_assoc (a b c : string) : (a +:+ b) +:+ c = a +:+ (b +:+ c).
Proof.
  induction a as [| x a IH]; [reflexivity |].
  now rewrite !string_app_cons, IH.
Qed.

Lemma split_acc_no_space cur t :
  no_space t = true -> split_acc cur t = [cur +:+ t].
Proof.
  revert cur. induction t as [| c t IH]; intros cur H; simpl.
  - now rewrite string_app_nil_r.
  - unfold no_space in H. simpl in H. apply andb_true_iff in H as [Hc Ht].
    apply negb_true_iff in Hc. rewrite Hc, (IH _ Ht).
    now rewrite string_app_assoc.
Qed.

Lemma split_acc_cons cur s : exists x l, split_acc cur s = x :: l.
Proof.
  revert cur. induction s as [| c s IH]; intros cur; simpl; [eauto |].
  destruct (Ascii.eqb c " "); eauto.
Qed.

Lemma last_split_acc cur p t :
  no_space t = true ->
  List.last (split_acc cur (p +:+ " " +:+ t)) "" = t.
Proof.
  intros Ht. revert cur. induction p as [| c p IH]; intros cur.
  - simpl. now rewrite (split_acc_no_space _ _ Ht).
  - rewrite string_app_cons. cbn [split_acc]. destruct (Ascii.eqb c " ").
    + destruct (split_acc_cons "" (p +:+ " " +:+ t)) as (x & l & Hx).
      specialize (IH ""). rewrite Hx in *. exact IH.
    + apply IH.
Qed.

(** The last piece of [scheme token] is the token, whatever the scheme. *)
Lemma last_piece_scheme scheme t :
  no_space t = true -> last_piece (scheme +:+ " " +:+ t) = t.
Proof. apply last_split_acc. Qed.

Lemma last_piece_bare t : no_space t = true -> last_piece t = t.
Proof.
  intros Ht. unfold last_piece, split_space. now rewrite (split_acc_no_space _ _ Ht).
Qed.

Lemma scheme_header_not_empty scheme t : scheme +:+ " " +:+ t <> "".
Proof. destruct scheme; discriminate. Qed.

(** The same at any time of verification. *)
Lemma verifyToken_last_piece key verify (en : env) scheme t next req s :
  no_space t = true ->
  authorization req = Some (scheme +:+ " " +:+ t) ->
  verifyToken key verify en next req s
  = match jwt_verify verify en t key with
    | Some d => next (with_decoded req d) s
    | None => forbidden s
    end.
Proof.
  intros Ht Hh. unfold verifyToken. rewrite Hh.
  destruct (String.eqb_spec (scheme +:+ " " +:+ t) "") as [Hempty |].
  - now apply scheme_header_not_empty in Hempty.
  - now rewrite last_piece_scheme.
Qed.

(** ** Users *)

Lemma matches_email v u :
  matches [("email", CEq v)] u = bool_decide (email_of u = v).
Proof.
  unfold matches, email_of, body_field. simpl. rewrite andb_true_r.
  destruct (u !! "email"); [reflexivity |].
  apply bool_decide_ext. split; congruence.
Qed.

Lemma findOne_email_None v docs :
  (forall u, In u docs -> email_of u <> v) ->
  findOne [("email", CEq v)] docs = None.
Proof.
  intros H. apply findOne_None. intros u Hu.
  rewrite matches_email. now apply bool_decide_eq_false_2, H.
Qed.

Lemma findOne_email_None_inv v docs :
  findOne [("email", CEq v)] docs = None ->
  forall u, In u docs -> email_of u <> v.
Proof.
  intros H u Hu. apply findOne_None with (d := u) in H; [| exact Hu].
  rewrite matches_email in H. now apply bool_decide_eq_false in H.
Qed.

Lemma store_spec doc fresh docs :
  let id := default (VId fresh) (doc !! "_id") in
  store doc fresh docs
  = if has_id id docs then None else Some ((docs ++ [<["_id" := id]> doc])%list, id).
Proof. reflexivity. Qed.

Lemma findOne_app_last q docs d :
  matches q d = true -> exists w, findOne q (docs ++ [d])%list = Some w.
Proof.
  intros Hm. apply (findOne_exists _ _ d); [| exact Hm].
  apply in_or_app. right. now left.
Qed.

(** ** More on the store *)

Lemma findOne_first q l1 x l2 :
  (forall d, In d l1 -> matches q d = false) -> matches q x = true ->
  findOne q (l1 ++ x :: l2)%list = Some x.
Proof.
  unfold findOne. induction l1 as [| d ds IH]; intros H Hx; simpl.
  - now rewrite Hx.
  - rewrite (H d) by now left. apply IH; [| exact Hx].
    intros d' Hd'. apply H. now right.
Qed.

Lemma upsert_by_id_document o (upd : document) :
  upd !! "_id" = None ->
  <["_id" := VId o]> (upd ∪ <["_id" := VId o]> ∅) = <["_id" := VId o]> upd.
Proof.
  intros Hid. apply map_eq. intros k.
  destruct (decide (k = "_id")) as [-> | Hk]; [by rewrite !lookup_insert_eq |].
  rewrite !lookup_insert_ne by done. rewrite lookup_union.
  rewrite lookup_insert_ne by done. rewrite lookup_empty.
  by destruct (upd !! k).
Qed.

Lemma no_id_no_match o docs :
  (forall x, In x docs -> x !! "_id" <> Some (VId o)) ->
  forall d, In d docs -> matches [("_id", CEq (VId o))] d = false.
Proof.
  intros H d Hd. apply not_true_is_false. rewrite matches_id. now apply H.
Qed.

(** An update by identifier when no document carries it: the document is
    created. *)
Lemma updateOne_by_id_creates o upd fresh docs :
  upd !! "_id" = None ->
  (forall x, In x docs -> x !! "_id" <> Some (VId o)) ->
  updateOne [("_id", CEq (VId o))] upd fresh docs
  = ((docs ++ [<["_id" := VId o]> upd])%list,
     Some {| matchedCount := 0; modifiedCount := 0;
             upsertedCount := 1; upsertedId := Some (VId o) |}).
Proof.
  intros Hid Hfree. unfold updateOne.
  rewrite (update_first_no_match _ _ _ (no_id_no_match _ _ Hfree)).
  unfold run_update, upsert. rewrite new_document_plain by exact Hid.
  rewrite store_spec. cbn [eq_fields].
  assert (Ho : (upd ∪ <["_id" := VId o]> ∅) !! "_id" = Some (VId o)).
  { rewrite lookup_union, Hid. by simplify_map_eq. }
  rewrite Ho. simpl. apply has_id_false in Hfree. rewrite Hfree.
  now rewrite upsert_by_id_document.
Qed.

(** An update that names another [_id] than the one it looks for fails
    without writing. *)
Lemma updateOne_by_id_conflict o upd v fresh docs :
  upd !! "_id" = Some v -> v <> VId o ->
  updateOne [("_id", CEq (VId o))] upd fresh docs = (docs, None).
Proof.
  intros Hid Hv. unfold updateOne.
  assert (Hscan : update_first [("_id", CEq (VId o))] upd docs = NoMatch \/
                  update_first [("_id", CEq (VId o))] upd docs = Failed docs).
  { induction docs as [| d ds IH]; cbn [update_first]; [now left |].
    destruct (matches [("_id", CEq (VId o))] d) eqn:Hm.
    - apply matches_id in Hm. unfold set_fields. rewrite Hid.
      rewrite bool_decide_eq_false_2 by congruence. now right.
    - destruct IH as [-> | ->]; [now left | now right]. }
  destruct Hscan as [-> | ->]; [| reflexivity].
  unfold run_update, upsert, new_document. cbn [eq_fields].
  rewrite Hid, lookup_insert_eq. now rewrite bool_decide_eq_false_2.
Qed.

(** ** The identifiers stay unique *)

Lemma update_first_ids q upd docs :
  match update_first q upd docs with
  | NoMatch => True
  | Failed docs' | Done docs' _ _ =>
      map (fun d => d !! "_id") docs' = map (fun d => d !! "_id") docs
  end.
Proof.
  induction docs as [| d ds IH]; cbn [update_first]; [exact I |].
  destruct (matches q d).
  - destruct (set_fields upd d) as [d' |] eqn:Hset; [| reflexivity].
    simpl. now rewrite (set_fields_id _ _ _ Hset).
  - destruct (update_first q upd ds); simpl; congruence.
Qed.

Lemma update_all_ids q upd docs :
  match update_all q upd docs with
  | NoMatch => True
  | Failed docs' | Done docs' _ _ =>
      map (fun d => d !! "_id") docs' = map (fun d => d !! "_id") docs
  end.
Proof.
  induction docs as [| d ds IH]; cbn [update_all]; [exact I |].
  destruct (matches q d).
  - destruct (set_fields upd d) as [d' |] eqn:Hset; [| reflexivity].
    apply set_fields_id in Hset.
    destruct (update_all q upd ds); simpl; congruence.
  - destruct (update_all q upd ds); simpl; congruence.
Qed.

Lemma run_update_unique scan q upd fresh docs :
  match scan with
  | NoMatch => True
  | Failed docs' | Done docs' _ _ =>
      map (fun d => d !! "_id") docs' = map (fun d => d !! "_id") docs
  end ->
  unique_ids docs -> unique_ids (run_update scan q upd fresh docs).1.
Proof.
  intros Hscan Hu. destruct scan as [| docs' | docs' m n]; simpl.
  - unfold upsert. destruct (new_document q upd) as [doc |]; [| exact Hu].
    destruct (store doc fresh docs) as [[docs' id] |] eqn:Hst; [| exact Hu].
    simpl. exact (store_unique _ _ _ _ _ Hu Hst).
  - unfold unique_ids. now rewrite Hscan.
  - unfold unique_ids. now rewrite Hscan.
Qed.

Lemma updateOne_unique q upd fresh docs :
  unique_ids docs -> unique_ids (updateOne q upd fresh docs).1.
Proof. apply run_update_unique, update_first_ids. Qed.

Lemma updateMany_unique q upd fresh docs :
  unique_ids docs -> unique_ids (updateMany q upd fresh docs).1.
Proof. apply run_update_unique, update_all_ids. Qed.

Lemma insertOne_unique doc fresh docs :
  unique_ids docs ->
  unique_ids (from_option fst docs (insertOne doc fresh docs)).
Proof.
  intros Hu. unfold insertOne.
  destruct (store doc fresh docs) as [[docs' id] |] eqn:Hst; [| exact Hu].
  exact (store_unique _ _ _ _ _ Hu Hst).
Qed.

Section Coverage.

Variable ACCESS_TOKEN : string.
Variable jws_sign : string -> claims -> string.
Variable jws_verify : string -> string -> option claims.
Variable ObjectId : string -> option oid.
Variable regex : string -> option (string -> bool).
Variable e : env.

Local Abbreviation app := (serve ACCESS_TOKEN jws_sign jws_verify ObjectId regex e).
Local Abbreviation authentic := (authenticated ACCESS_TOKEN jws_verify e).
Local Abbreviation run := (chain ACCESS_TOKEN jws_verify e).
Local Abbreviation handle := (handler_of ACCESS_TOKEN jws_sign ObjectId regex e).

(** X1.  [verifyToken] never looks at the scheme of the header: whatever
    precedes the last space, the token after it alone decides between 403
    and the next step of the chain, which then sees the decoded claims. *)
Theorem verifyToken_ignores_scheme
    (scheme t : string) (next : handler) (req : request) (s : db) :
  no_space t = true ->
  authorization req = Some (scheme +:+ " " +:+ t) ->
  verifyToken ACCESS_TOKEN jws_verify e next req s
  = match jwt_verify jws_verify e t ACCESS_TOKEN with
    | Some d => next (with_decoded req d) s
    | None => forbidden s
    end.
Proof.
  intros Ht Hh. unfold verifyToken. rewrite Hh.
  destruct (String.eqb_spec (scheme +:+ " " +:+ t) "") as [Hempty |].
  - now apply scheme_header_not_empty in Hempty.
  - now rewrite last_piece_scheme.
Qed.

(** X2.  The token that GET /jwt issues for a stored email, sent back as
    [Bearer token], is accepted by [verifyToken] until ten hours after it
    was issued, the next step seeing the email it was issued for; from then
    on it is answered 403.  The signing primitive is assumed to produce a
    token without spaces that verifies to the claims it was signed over. *)
Theorem issued_token_admits (req : request) (s : db) (X : string) (u : document) :
  let c := {| claim_email := Some X; iat := now e; exp := Some (now e + 36000) |} in
  query_email req = Some X ->
  In u (users s) ->
  u !! "email" = Some (VStr X) ->
  jws_verify ACCESS_TOKEN (jws_sign ACCESS_TOKEN c) = Some c ->
  no_space (jws_sign ACCESS_TOKEN c) = true ->
  exists token,
    app GET_jwt req s = (s, Sent 200 (AccessToken token)) /\
    forall (later : env) (next : handler) (req' : request) (s' : db),
      authorization req' = Some ("Bearer " +:+ token) ->
      chain ACCESS_TOKEN jws_verify later Token next req' s'
      = if now e + 36000 <=? now later then forbidden s'
        else next (with_decoded req' c) s'.
Proof.
  intros c Hq Hu Hv Hcodec Hns.
  exists (jws_sign ACCESS_TOKEN c). split.
  - unfold serve; simpl. unfold get_jwt. rewrite Hq. simpl.
    destruct (found_by_email _ _ _ Hu Hv) as [w Hw]. now rewrite Hw.
  - intros later next req' s' Hh. simpl.
    change ("Bearer " +:+ jws_sign ACCESS_TOKEN c)
      with ("Bearer" +:+ " " +:+ jws_sign ACCESS_TOKEN c) in Hh.
    rewrite (verifyToken_last_piece ACCESS_TOKEN jws_verify later _ _ next req' s' Hns Hh).
    unfold jwt_verify. rewrite Hcodec. subst c. simpl.
    now destruct (now e + 36000 <=? now later).
Qed.

(** ** What the routes read and write *)

(** X3.  The six routes without middleware answer the same whatever the
    Authorization header: none of their handlers reads it. *)
Theorem open_routes_ignore_header (r : route) (a : option string) (req : request) (s : db) :
  guard_of r = Open ->
  app r (with_authorization a req) s = app r req s.
Proof.
  intros Hg. destruct r; try discriminate Hg; reflexivity.
Qed.

(** The middleware either answers by itself, leaving the database alone, or
    hands some request over to the handler. *)
Lemma chain_cases g h req s :
  (run g h req s = unauthorized s \/ run g h req s = forbidden s) \/
  exists req', run g h req s = h req' s.
Proof.
  destruct g; simpl; [right; eauto | | |];
    unfold verifyToken;
    (destruct (authorization req) as [hd |]; [| left; now left]);
    (destruct (String.eqb hd ""); [left; now left |]);
    (destruct (jwt_verify _ _ _ _) as [d |]; [| left; now right]).
  - right; eauto.
  - unfold verifyAdmin. simpl. destruct (negb _); [left; now right | right; eauto].
  - unfold verifySeller. simpl. destruct (negb _); [left; now right | right; eauto].
Qed.

Ltac split_handler :=
  repeat match goal with
         | |- context [match ?x with _ => _ end] => destruct x eqn:?; simpl
         end.

(** What each handler may touch. *)
Lemma handler_frame r req s :
  categories (handle r req s).1 = categories s /\
  (writes_users r = false -> users (handle r req s).1 = users s) /\
  (writes_products r = false -> products (handle r req s).1 = products s) /\
  (is_get r = true -> (handle r req s).1 = s).
Proof.
  destruct r; simpl;
    unfold post_products, get_products, get_products_reported,
      delete_products_reported_id, delete_products_id, put_products_id,
      put_products_advertisement_id, get_products_advertisement, get_categories,
      get_categories_id, get_users_admin_email, get_users_buyer,
      get_users_buyer_email, get_users_seller_email, get_users_seller,
      put_users_seller_id, delete_users_id, post_users, get_jwt;
    split_handler; repeat split; intros; try discriminate; reflexivity.
Qed.

(** X4.  A GET request never changes the database, whatever it is answered:
    a list, a boolean, a token, 401, 403, or nothing at all. *)
Theorem get_requests_never_write (r : route) (req : request) (s : db) :
  is_get r = true -> (app r req s).1 = s.
Proof.
  intros Hget. unfold serve.
  destruct (chain_cases (guard_of r) (handle r) req s) as [[H | H] | [req' H]];
    rewrite H; try reflexivity.
  now apply handler_frame.
Qed.

(** X5.  The categories are never written by any route; the users are
    written only by POST /users, PUT /users/seller/:id and DELETE
    /users/:id; the products only by POST /products, the two DELETE and the
    two PUT routes on products, and the cascade of PUT /users/seller/:id. *)
Theorem writes_are_confined (r : route) (req : request) (s : db) :
  categories (app r req s).1 = categories s /\
  (writes_users r = false -> users (app r req s).1 = users s) /\
  (writes_products r = false -> products (app r req s).1 = products s).
Proof.
  unfold serve.
  destruct (chain_cases (guard_of r) (handle r) req s) as [[H | H] | [req' H]];
    rewrite H; try (repeat split; reflexivity).
  destruct (handler_frame r req' s) as (Hc & Hu & Hp & _). auto.
Qed.

(** ** Registration *)

(** X6.  POST /users with an email that no record has stores the body under
    a new identifier.  The stored role is the body's own when it is truthy,
    whatever it says, and "buyer" when it is missing or falsy; every other
    field is stored as sent. *)
Theorem post_users_registers (req : request) (s : db) :
  let id := default (VId (fresh e 0)) (body req !! "_id") in
  (forall u, In u (users s) -> email_of u <> body_field (body req) "email") ->
  (forall u, In u (users s) -> u !! "_id" <> Some id) ->
  exists doc,
    app POST_users req s = (with_users s (users s ++ [doc])%list, Sent 200 (Inserted id)) /\
    doc !! "_id" = Some id /\
    doc !! "userRole"
    = (if truthy (body req !! "userRole") then body req !! "userRole"
       else Some (VStr "buyer")) /\
    (forall k, k <> "_id" -> k <> "userRole" -> doc !! k = body req !! k).
Proof.
  intros id Hnew Hfree. unfold serve; simpl. unfold post_users.
  set (user := if negb (truthy (body req !! "userRole"))
               then <["userRole" := VStr "buyer"]> (body req) else body req).
  assert (Hmail : body_field user "email" = body_field (body req) "email").
  { subst user. unfold body_field. destruct (negb _); [| reflexivity].
    now rewrite lookup_insert_ne. }
  assert (Hid : user !! "_id" = body req !! "_id").
  { subst user. destruct (negb _); [| reflexivity]. now rewrite lookup_insert_ne. }
  rewrite Hmail, (findOne_email_None _ _ Hnew).
  unfold insertOne. rewrite store_spec, Hid. fold id.
  apply has_id_false in Hfree. rewrite Hfree. simpl.
  eexists. split; [reflexivity |]. split; [apply lookup_insert_eq |]. split.
  - rewrite lookup_insert_ne by discriminate. subst user.
    destruct (truthy (body req !! "userRole")); simpl; [reflexivity |].
    apply lookup_insert_eq.
  - intros k Hk1 Hk2. rewrite lookup_insert_ne by congruence. subst user.
    destruct (negb _); [| reflexivity]. now rewrite lookup_insert_ne by congruence.
Qed.

(** X7.  Registration is idempotent: once POST /users has stored a body,
    the same body sent again, at any later time, is answered "User already
    exists!" and changes nothing. *)
Theorem post_users_twice (req : request) (s s1 : db) (id : value) (later : env) :
  app POST_users req s = (s1, Sent 200 (Inserted id)) ->
  serve ACCESS_TOKEN jws_sign jws_verify ObjectId regex later POST_users req s1
  = (s1, Sent 200 (Message "User already exists!")).
Proof.
  unfold serve; simpl. unfold post_users.
  set (user := if negb (truthy (body req !! "userRole"))
               then <["userRole" := VStr "buyer"]> (body req) else body req).
  destruct (findOne _ (users s)) as [w |]; [discriminate |].
  unfold insertOne. rewrite store_spec.
  destruct (has_id _ (users s)); [discriminate |].
  intros [= <- <-]. simpl.
  destruct (findOne_app_last [("email", CEq (body_field user "email"))] (users s)
              (<["_id" := default (VId (fresh e 0)) (user !! "_id")]> user)) as [w Hw].
  { rewrite matches_email. apply bool_decide_eq_true_2.
    unfold email_of, body_field. now rewrite lookup_insert_ne. }
  now rewrite Hw.
Qed.

(** X9.  Registration opens the way to a token: after POST /users has
    stored a body with the email X, GET /jwt?email=X is answered with a
    token. *)
Theorem register_then_token
    (req : request) (s s1 : db) (id : value) (X : string) (later : env) (req' : request) :
  app POST_users req s = (s1, Sent 200 (Inserted id)) ->
  body req !! "email" = Some (VStr X) ->
  query_email req' = Some X ->
  exists token,
    serve ACCESS_TOKEN jws_sign jws_verify ObjectId regex later GET_jwt req' s1
    = (s1, Sent 200 (AccessToken token)).
Proof.
  unfold serve; simpl. unfold post_users, get_jwt.
  set (user := if negb (truthy (body req !! "userRole"))
               then <["userRole" := VStr "buyer"]> (body req) else body req).
  destruct (findOne _ (users s)) as [w |]; [discriminate |].
  unfold insertOne. rewrite store_spec.
  destruct (has_id _ (users s)); [discriminate |].
  intros [= <- <-] Hmail Hq. rewrite Hq. simpl.
  destruct (findOne_app_last [("email", CEq (VStr X))] (users s)
              (<["_id" := default (VId (fresh e 0)) (user !! "_id")]> user)) as [w Hw].
  { rewrite matches_email. apply bool_decide_eq_true_2.
    unfold email_of, body_field. rewrite lookup_insert_ne by discriminate.
    subst user. destruct (negb _).
    - rewrite lookup_insert_ne by discriminate. now rewrite Hmail.
    - now rewrite Hmail. }
  rewrite Hw. eauto.
Qed.

Lemma serve_token' r req s d :
  guard_of r = Token -> authentic req d ->
  app r req s = handle r (with_decoded req d) s.
Proof. apply serve_token. Qed.

(** ** Roles *)

(** X10.  The role-status routes and the role checks read the same record:
    a token for an email passes the admin (seller) check exactly when GET
    /users/admin/:email (GET /users/seller/:email) answers [true] for that
    email. *)
Theorem role_status_agrees_with_role_check (req : request) (s : db) (d : claims) :
  authentic req d ->
  exists a b,
    app GET_users_admin_email req s = (s, Sent 200 (IsAdmin a)) /\
    app GET_users_seller_email req s = (s, Sent 200 (IsSeller b)) /\
    forall (req' : request) (d' : claims) (next : handler),
      authentic req' d' ->
      claim_email d' = Some (params_email req) ->
      run TokenAdmin next req' s
      = (if a then next (with_decoded req' d') s else forbidden s) /\
      run TokenSeller next req' s
      = (if b then next (with_decoded req' d') s else forbidden s).
Proof.
  intros Hd.
  exists (field_is (findOne [("email", CEq (VStr (params_email req)))] (users s))
            "userRole" "admin"),
         (field_is (findOne [("email", CEq (VStr (params_email req)))] (users s))
            "userRole" "seller").
  split; [| split].
  - now rewrite (serve_token' _ _ _ d).
  - now rewrite (serve_token' _ _ _ d).
  - intros req' d' next Hd' Hmail. simpl.
    rewrite !(verifyToken_pass _ _ _ _ _ _ d' Hd').
    unfold verifyAdmin, verifySeller. simpl. rewrite Hmail. simpl.
    split; now destruct (field_is _ _ _).
Qed.

(** ** Products *)

(** X11.  DELETE /products/reported/:id by an admin removes the product
    carrying the id, whoever sells it and whether or not it is reported. *)
Theorem delete_reported_removes
    (req : request) (s : db) (d : claims) (o : oid) (p : document) :
  authentic req d ->
  stored_role s (claim_email d) = Some (VStr "admin") ->
  ObjectId (params_id req) = Some o ->
  unique_ids (products s) ->
  In p (products s) ->
  p !! "_id" = Some (VId o) ->
  exists l1 l2,
    products s = (l1 ++ p :: l2)%list /\
    ~ In p (l1 ++ l2)%list /\
    app DELETE_products_reported_id req s
    = (with_products s (l1 ++ l2)%list, Sent 200 (Deleted 1)).
Proof.
  intros Hd Hrole Ho Hu Hp Hid.
  rewrite (serve_admin _ _ _ _ _ _ _ _ _ d) by easy. simpl.
  unfold delete_products_reported_id. simpl. rewrite Ho.
  destruct (unique_ids_split _ _ Hu Hp) as (l1 & l2 & Hsplit & Hothers).
  exists l1, l2. split; [exact Hsplit |]. split.
  - intros Hin. now apply (Hothers p Hin).
  - rewrite Hsplit at 1. rewrite deleteOne_first; [reflexivity | | now apply matches_id].
    intros x Hx. apply not_true_is_false. rewrite matches_id. intros Hc.
    apply (Hothers x); [apply in_or_app; now left | congruence].
Qed.

(** X12.  PUT /products/:id asks for a valid token and nothing more: any
    authenticated caller, whatever its role and whoever sells the product,
    rewrites the product carrying the id with the fields of the body; when
    no product carries it, the body is stored as a new product under that
    id.  The body is assumed not to name [_id]. *)
Theorem put_products_id_writes (req : request) (s : db) (d : claims) (o : oid) :
  authentic req d ->
  ObjectId (params_id req) = Some o ->
  body req !! "_id" = None ->
  (forall l1 p l2,
     products s = (l1 ++ p :: l2)%list ->
     p !! "_id" = Some (VId o) ->
     (forall x, In x l1 -> x !! "_id" <> Some (VId o)) ->
     app PUT_products_id req s
     = (with_products s (l1 ++ (body req ∪ p) :: l2)%list,
        Sent 200 (Updated {| matchedCount := 1;
                             modifiedCount := changed p (body req ∪ p);
                             upsertedCount := 0; upsertedId := None |}))) /\
  ((forall x, In x (products s) -> x !! "_id" <> Some (VId o)) ->
   app PUT_products_id req s
   = (with_products s (products s ++ [<["_id" := VId o]> (body req)])%list,
      Sent 200 (Updated {| matchedCount := 0; modifiedCount := 0;
                           upsertedCount := 1; upsertedId := Some (VId o) |}))).
Proof.
  intros Hd Ho Hid.
  rewrite (serve_token' _ _ _ d) by easy. simpl.
  unfold put_products_id. simpl. rewrite Ho. split.
  - intros l1 p l2 Hsplit Hp Hl1. rewrite Hsplit at 1. unfold updateOne.
    rewrite update_first_match; try assumption; try reflexivity.
    + apply no_id_no_match. exact Hl1.
    + now apply matches_id.
  - intros Hfree. now rewrite updateOne_by_id_creates.
Qed.

(** X13.  PUT /products/:id with a body that names an [_id] other than the
    one in the path is refused by the store: the request gets no answer and
    nothing is written. *)
Theorem put_products_id_foreign_id
    (req : request) (s : db) (d : claims) (o : oid) (v : value) :
  authentic req d ->
  ObjectId (params_id req) = Some o ->
  body req !! "_id" = Some v ->
  v <> VId o ->
  app PUT_products_id req s = (s, Crashed).
Proof.
  intros Hd Ho Hid Hv.
  rewrite (serve_token' _ _ _ d) by easy. simpl.
  unfold put_products_id. simpl. rewrite Ho.
  rewrite (updateOne_by_id_conflict o (body req) v) by assumption.
  unfold crash. now rewrite with_products_same.
Qed.

Lemma find_sellerEmail E docs :
  find [("sellerEmail", CEq (VStr E))] docs
  = List.filter (fun p => bool_decide (p !! "sellerEmail" = Some (VStr E))) docs.
Proof.
  apply List.filter_ext. intros p.
  destruct (matches _ p) eqn:Hm; symmetry.
  - apply bool_decide_eq_true_2. now apply (sold_by_spec E p).
  - apply bool_decide_eq_false_2. intros Hc. apply (sold_by_spec E p) in Hc.
    unfold sold_by, param in Hc. congruence.
Qed.

(** X14.  GET /products?email=E answers exactly the products whose
    [sellerEmail] is E, in the order of the collection, to every
    authenticated seller: E comes from the query string, and the email in
    the caller's token plays no part. *)
Theorem get_products_lists_by_query_email
    (req : request) (s : db) (d : claims) (E : string) :
  authentic req d ->
  stored_role s (claim_email d) = Some (VStr "seller") ->
  query_email req = Some E ->
  app GET_products req s
  = (s, Sent 200 (Documents
           (List.filter (fun p => bool_decide (p !! "sellerEmail" = Some (VStr E)))
              (products s)))).
Proof.
  intros Hd Hrole Hq.
  rewrite (serve_seller _ _ _ _ _ _ _ _ _ d) by easy. simpl.
  unfold get_products. simpl. rewrite Hq. simpl. now rewrite find_sellerEmail.
Qed.

(** X15.  A product posted by a seller is stored under a new identifier
    and, from then on, closes the list that GET /products answers for its
    [sellerEmail]. *)
Theorem post_product_then_listed
    (req : request) (s : db) (d : claims) (E : string) :
  let doc := <["_id" := VId (fresh e 0)]> (body req) in
  let s1 := with_products s (products s ++ [doc])%list in
  authentic req d ->
  stored_role s (claim_email d) = Some (VStr "seller") ->
  body req !! "_id" = None ->
  body req !! "sellerEmail" = Some (VStr E) ->
  (forall x, In x (products s) -> x !! "_id" <> Some (VId (fresh e 0))) ->
  app POST_products req s = (s1, Sent 200 (Inserted (VId (fresh e 0)))) /\
  forall (later : env) (req' : request) (d' : claims),
    authenticated ACCESS_TOKEN jws_verify later req' d' ->
    stored_role s (claim_email d') = Some (VStr "seller") ->
    query_email req' = Some E ->
    serve ACCESS_TOKEN jws_sign jws_verify ObjectId regex later GET_products req' s1
    = (s1, Sent 200 (Documents
             (List.filter (fun p => bool_decide (p !! "sellerEmail" = Some (VStr E)))
                (products s) ++ [doc])%list)).
Proof.
  intros doc s1 Hd Hrole Hid Hmail Hfree. split.
  - rewrite (serve_seller _ _ _ _ _ _ _ _ _ d) by easy. simpl.
    unfold post_products, insertOne. simpl. rewrite store_spec, Hid. simpl.
    apply has_id_false in Hfree. now rewrite Hfree.
  - intros later req' d' Hd' Hrole' Hq.
    rewrite (serve_seller _ _ _ _ _ _ _ _ _ d') by easy. simpl.
    unfold get_products. simpl. rewrite Hq. simpl.
    rewrite find_sellerEmail, List.filter_app. simpl.
    assert (Hdoc : doc !! "sellerEmail" = Some (VStr E)).
    { subst doc. now rewrite lookup_insert_ne. }
    now rewrite bool_decide_eq_true_2.
Qed.

(** X16.  A seller who advertises a product of its own gets it rewritten in
    place with [isAdvertised = true], and the open route GET
    /products/advertisement then lists it. *)
Theorem advertise_own_product
    (req : request) (s : db) (d : claims) (o : oid) (E : string)
    (l1 : list document) (p : document) (l2 : list document) :
  let p' := <["isAdvertised" := VBool true]> p in
  let s1 := with_products s (l1 ++ p' :: l2)%list in
  authentic req d ->
  stored_role s (claim_email d) = Some (VStr "seller") ->
  ObjectId (params_id req) = Some o ->
  query_email req = Some E ->
  products s = (l1 ++ p :: l2)%list ->
  p !! "_id" = Some (VId o) ->
  p !! "sellerEmail" = Some (VStr E) ->
  (forall x, In x l1 -> x !! "_id" <> Some (VId o)) ->
  app PUT_products_advertisement_id req s
  = (s1, Sent 200 (Updated {| matchedCount := 1; modifiedCount := changed p p';
                              upsertedCount := 0; upsertedId := None |})) /\
  forall (later : env) (req' : request),
    exists docs,
      serve ACCESS_TOKEN jws_sign jws_verify ObjectId regex later
        GET_products_advertisement req' s1
      = (s1, Sent 200 (Documents docs)) /\
      In p' docs.
Proof.
  intros p' s1 Hd Hrole Ho Hq Hsplit Hid Hmail Hl1. split.
  - rewrite (serve_seller _ _ _ _ _ _ _ _ _ d) by easy. simpl.
    unfold put_products_advertisement_id. simpl. rewrite Ho, Hq. simpl.
    rewrite Hsplit at 1. unfold updateOne.
    rewrite update_first_match; try reflexivity.
    + subst s1 p'. now rewrite insert_union_singleton_l.
    + intros x Hx. apply not_true_is_false. rewrite matches_owner.
      intros [_ Hc]. now apply (Hl1 x Hx).
    + apply matches_owner. now split.
  - intros later req'. eexists. split; [reflexivity |].
    unfold find. apply List.filter_In. split.
    + simpl. apply in_or_app. right. now left.
    + apply matches_eq_field. left. subst p'. apply lookup_insert_eq.
Qed.

(** ** Changes of role take effect at once *)

Lemma put_users_seller_id_users req s o :
  ObjectId (params_id req) = Some o ->
  users (put_users_seller_id ObjectId e req s).1
  = (updateOne [("_id", CEq (VId o))] (body req) (fresh e 0) (users s)).1.
Proof.
  intros Ho. unfold put_users_seller_id. rewrite Ho.
  destruct (updateOne _ (body req) (fresh e 0) (users s)) as [us [r |]]; [| reflexivity].
  now destruct (updateMany _ (body req) (fresh e 1) (products s)) as [ps [r' |]].
Qed.

(** X17.  When an admin sets [userRole] to "seller" on the first record of
    an email, every token for that email passes the seller check from the
    next request on: the check reads the stored role, not the token. *)
Theorem promotion_takes_effect
    (req : request) (s : db) (d : claims) (o : oid) (em : string)
    (l1 : list document) (u : document) (l2 : list document) :
  authentic req d ->
  stored_role s (claim_email d) = Some (VStr "admin") ->
  ObjectId (params_id req) = Some o ->
  body req !! "_id" = None ->
  body req !! "email" = None ->
  body req !! "userRole" = Some (VStr "seller") ->
  users s = (l1 ++ u :: l2)%list ->
  u !! "_id" = Some (VId o) ->
  u !! "email" = Some (VStr em) ->
  (forall x, In x l1 -> x !! "_id" <> Some (VId o) /\ email_of x <> VStr em) ->
  forall (later : env) (req' : request) (d' : claims) (next : handler),
    authenticated ACCESS_TOKEN jws_verify later req' d' ->
    claim_email d' = Some em ->
    chain ACCESS_TOKEN jws_verify later TokenSeller next req'
      (app PUT_users_seller_id req s).1
    = next (with_decoded req' d') (app PUT_users_seller_id req s).1.
Proof.
  intros Hd Hrole Ho Hid Hbmail Hbrole Hsplit Huid Humail Hl1 later req' d' next Hd' Hmail.
  rewrite (serve_admin _ _ _ _ _ _ _ _ _ d) by easy. simpl.
  set (s1 := (put_users_seller_id ObjectId e (with_decoded req d) s).1).
  assert (Hus : users s1 = (l1 ++ (body req ∪ u) :: l2)%list).
  { subst s1. rewrite (put_users_seller_id_users _ _ o) by exact Ho. simpl.
    rewrite Hsplit. apply updateOne_by_id_rewrites; try assumption.
    intros x Hx. now apply Hl1. }
  rewrite (verifyToken_pass _ _ _ _ _ _ d' Hd').
  rewrite (verifySeller_spec _ _ _ d') by reflexivity.
  rewrite bool_decide_eq_true_2; [reflexivity |].
  unfold stored_role. rewrite Hmail, Hus. simpl.
  rewrite findOne_first.
  - simpl. now apply lookup_union_Some_l.
  - intros x Hx. rewrite matches_email. apply bool_decide_eq_false_2. now apply Hl1.
  - rewrite matches_email. apply bool_decide_eq_true_2.
    unfold email_of, body_field. rewrite lookup_union_r by exact Hbmail.
    now rewrite Humail.
Qed.

(** X18.  When an admin deletes a user record and no record with its email
    is left, every token for that email is refused with 403 on the admin
    and the seller routes from the next request on, however long it is
    still valid. *)
Theorem deletion_revokes_role
    (req : request) (s : db) (d : claims) (o : oid) (em : string)
    (l1 : list document) (u : document) (l2 : list document) :
  let s1 := with_users s (l1 ++ l2)%list in
  authentic req d ->
  stored_role s (claim_email d) = Some (VStr "admin") ->
  ObjectId (params_id req) = Some o ->
  users s = (l1 ++ u :: l2)%list ->
  u !! "_id" = Some (VId o) ->
  (forall x, In x l1 -> x !! "_id" <> Some (VId o)) ->
  (forall x, In x (l1 ++ l2)%list -> email_of x <> VStr em) ->
  app DELETE_users_id req s = (s1, Sent 200 (Deleted 1)) /\
  forall (later : env) (req' : request) (d' : claims) (next : handler),
    authenticated ACCESS_TOKEN jws_verify later req' d' ->
    claim_email d' = Some em ->
    chain ACCESS_TOKEN jws_verify later TokenAdmin next req' s1 = forbidden s1 /\
    chain ACCESS_TOKEN jws_verify later TokenSeller next req' s1 = forbidden s1.
Proof.
  intros s1 Hd Hrole Ho Hsplit Huid Hl1 Hrest. split.
  - rewrite (serve_admin _ _ _ _ _ _ _ _ _ d) by easy. simpl.
    unfold delete_users_id. simpl. rewrite Ho, Hsplit.
    rewrite deleteOne_first; [reflexivity | | now apply matches_id].
    now apply no_id_no_match.
  - intros later req' d' next Hd' Hmail. simpl.
    rewrite !(verifyToken_pass _ _ _ _ _ _ d' Hd').
    rewrite (verifyAdmin_spec _ _ _ d'), (verifySeller_spec _ _ _ d') by reflexivity.
    assert (Hnone : forall lit, stored_role s1 (claim_email d') <> Some (VStr lit)).
    { intros lit. unfold stored_role. rewrite Hmail. simpl.
      rewrite (findOne_email_None _ _ Hrest). discriminate. }
    rewrite !bool_decide_eq_false_2 by apply Hnone. now split.
Qed.

(** ** The store's invariant *)

Ltac ids_step :=
  match goal with
  | |- context [deleteOne ?q ?l] =>
      let H := fresh "Hdel" in
      pose proof (deleteOne_unique q l) as H;
      destruct (deleteOne q l) as [? ?]; simpl in *
  | |- context [updateMany ?q ?u ?f ?l] =>
      let H := fresh "Hmany" in
      pose proof (updateMany_unique q u f l) as H;
      destruct (updateMany q u f l) as [? [? |]]; simpl in *
  | |- context [updateOne ?q ?u ?f ?l] =>
      let H := fresh "Hone" in
      pose proof (updateOne_unique q u f l) as H;
      destruct (updateOne q u f l) as [? [? |]]; simpl in *
  | |- context [insertOne ?d ?f ?l] =>
      let H := fresh "Hins" in
      pose proof (insertOne_unique d f l) as H;
      destruct (insertOne d f l) as [[? ?] |]; simpl in *
  | |- context [ObjectId ?x] => destruct (ObjectId x); simpl
  | |- context [findOne ?q ?l] => destruct (findOne q l); simpl
  end.

Lemma handler_keeps_ids r req s :
  unique_ids (users s) -> unique_ids (products s) ->
  unique_ids (users (handle r req s).1) /\ unique_ids (products (handle r req s).1).
Proof.
  intros Hu Hp.
  destruct (writes_users r) eqn:Hwu, (writes_products r) eqn:Hwp.
  4:{ destruct (handler_frame r req s) as (_ & Hfu & Hfp & _).
      now rewrite Hfu, Hfp. }
  all: destruct r; try discriminate; simpl;
    unfold post_products, delete_products_reported_id, delete_products_id,
      put_products_id, put_products_advertisement_id, put_users_seller_id,
      delete_users_id, post_users;
    repeat ids_step; auto.
Qed.

(** X19.  No route ever leaves two users, or two products, with the same
    [_id]: if the identifiers are pairwise distinct before a request, they
    are so after it, whatever the request and whatever its outcome. *)
Theorem routes_keep_ids_unique (r : route) (req : request) (s : db) :
  unique_ids (users s) ->
  unique_ids (products s) ->
  unique_ids (users (app r req s).1) /\ unique_ids (products (app r req s).1).
Proof.
  intros Hu Hp. unfold serve.
  destruct (chain_cases (guard_of r) (handle r) req s) as [[H | H] | [req' H]];
    rewrite H; auto.
  now apply handler_keeps_ids.
Qed.

(** ** Edge cases *)

Lemma chain_cases_request g h req s :
  (run g h req s = unauthorized s \/ run g h req s = forbidden s) \/
  run g h req s = h req s \/
  exists d, run g h req s = h (with_decoded req d) s.
Proof.
  destruct g; simpl; [right; now left | | |];
    unfold verifyToken;
    (destruct (authorization req) as [hd |]; [| left; now left]);
    (destruct (String.eqb hd ""); [left; now left |]);
    (destruct (jwt_verify _ _ _ _) as [d |]; [| left; now right]).
  - right; right; eauto.
  - unfold verifyAdmin. simpl.
    destruct (negb _); [left; now right | right; right; eauto].
  - unfold verifySeller. simpl.
    destruct (negb _); [left; now right | right; right; eauto].
Qed.

Lemma handler_invalid_id r req s :
  uses_id r = true -> ObjectId (params_id req) = None ->
  handle r req s = (s, Crashed).
Proof.
  intros Hr Ho. destruct r; try discriminate; simpl;
    unfold delete_products_reported_id, delete_products_id, put_products_id,
      put_products_advertisement_id, put_users_seller_id, delete_users_id;
    now rewrite Ho.
Qed.

(** X20.  On the six routes that read an identifier from the path, an
    identifier that [ObjectId] refuses never gets a 200 and never writes:
    the request is answered 401 or 403 by the middleware, or not at all. *)
Theorem invalid_id_never_succeeds (r : route) (req : request) (s : db) :
  uses_id r = true ->
  ObjectId (params_id req) = None ->
  (app r req s).1 = s /\ forall p, (app r req s).2 <> Sent 200 p.
Proof.
  intros Hr Ho. unfold serve.
  destruct (chain_cases_request (guard_of r) (handle r) req s)
    as [[H | H] | [H | [d H]]]; rewrite H.
  - split; [reflexivity | discriminate].
  - split; [reflexivity | discriminate].
  - rewrite handler_invalid_id by assumption. split; [reflexivity | discriminate].
  - rewrite handler_invalid_id by assumption. split; [reflexivity | discriminate].
Qed.

(** X21.  GET /categories always answers a prefix of the collection in its
    stored order, never a selection or a reordering; a limit that reads as
    a number not below the size of the collection gives all of it. *)
Theorem get_categories_prefix (req : request) (s : db) :
  (exists k : nat,
     app GET_categories req s = (s, Sent 200 (Documents (take k (categories s))))) /\
  (forall lim n,
     query_limit req = Some lim -> parseInt lim = Int n ->
     Z.of_nat (length (categories s)) <= n ->
     app GET_categories req s = (s, Sent 200 (Documents (categories s)))).
Proof.
  unfold serve; simpl. unfold get_categories. rewrite find_all.
  assert (Hall : take (length (categories s)) (categories s) = categories s)
    by apply firstn_all.
  split.
  - destruct (parseInt (to_string (query_limit req))) as [| z | neg];
      cbn [truthy_num limit].
    + exists (length (categories s)). now rewrite Hall.
    + destruct (z =? 0); cbn [negb].
      * exists (length (categories s)). now rewrite Hall.
      * eauto.
    + exists (length (categories s)). now rewrite Hall.
  - intros lim n Hq Hp Hn. rewrite Hq. unfold to_string. rewrite Hp.
    cbn [truthy_num limit].
    destruct (n =? 0) eqn:Hz; cbn [negb]; [reflexivity |].
    rewrite take_ge; [reflexivity | lia].
Qed.

Lemma with_users_same s : with_users s (users s) = s.
Proof. now destruct s. Qed.


(** X24.  Deleting by an identifier that no document carries is not an
    error: DELETE /users/:id and DELETE /products/reported/:id answer 200
    with a deleted count of zero and leave the database as it was. *)
Theorem delete_unknown_id (req : request) (s : db) (d : claims) (o : oid) :
  authentic req d ->
  stored_role s (claim_email d) = Some (VStr "admin") ->
  ObjectId (params_id req) = Some o ->
  ((forall x, In x (users s) -> x !! "_id" <> Some (VId o)) ->
   app DELETE_users_id req s = (s, Sent 200 (Deleted 0))) /\
  ((forall x, In x (products s) -> x !! "_id" <> Some (VId o)) ->
   app DELETE_products_reported_id req s = (s, Sent 200 (Deleted 0))).
Proof.
  intros Hd Hrole Ho. split; intros Hfree;
    rewrite (serve_admin _ _ _ _ _ _ _ _ _ d) by easy; simpl;
    unfold delete_users_id, delete_products_reported_id; simpl; rewrite Ho;
    rewrite (deleteOne_no_match _ _ (no_id_no_match _ _ Hfree)); simpl.
  - now rewrite with_users_same.
  - now rewrite with_products_same.
Qed.

End Coverage.

(** ** The earliest revision *)

(** X22.  In the earliest revision POST /users never looks for the email:
    the same body posted twice is stored twice, as two records with the
    same email, each marked [isBuyer]. *)
Theorem earlier_post_users_duplicates (e1 e2 : env) (req : request) (s : db) :
  let d1 := <["_id" := VId (fresh e1 0)]> (<["isBuyer" := VBool true]> (body req)) in
  let d2 := <["_id" := VId (fresh e2 0)]> (<["isBuyer" := VBool true]> (body req)) in
  let s1 := with_users s (users s ++ [d1])%list in
  let s2 := with_users s (users s ++ [d1; d2])%list in
  body req !! "_id" = None ->
  fresh e1 0 <> fresh e2 0 ->
  (forall x, In x (users s) ->
             x !! "_id" <> Some (VId (fresh e1 0)) /\ x !! "_id" <> Some (VId (fresh e2 0))) ->
  Earlier.post_users e1 req s = (s1, Sent 200 (Inserted (VId (fresh e1 0)))) /\
  Earlier.post_users e2 req s1 = (s2, Sent 200 (Inserted (VId (fresh e2 0)))) /\
  email_of d1 = email_of d2 /\
  d1 !! "isBuyer" = Some (VBool true) /\ d2 !! "isBuyer" = Some (VBool true).
Proof.
  intros d1 d2 s1 s2 Hid Hne Hfree.
  assert (Huid : (<["isBuyer" := VBool true]> (body req)) !! "_id" = None).
  { now rewrite lookup_insert_ne. }
  split; [| split; [| split; [| split]]].
  - unfold Earlier.post_users, insertOne. rewrite store_spec, Huid. simpl.
    assert (Hf : has_id (VId (fresh e1 0)) (users s) = false).
    { apply has_id_false. intros x Hx. now apply Hfree. }
    now rewrite Hf.
  - unfold Earlier.post_users, insertOne. rewrite store_spec, Huid. simpl.
    assert (Hf : has_id (VId (fresh e2 0)) (users s ++ [d1]) = false).
    { apply has_id_false. intros x Hx. apply in_app_or in Hx.
      destruct Hx as [Hx | [<- | []]]; [now apply Hfree |].
      subst d1. rewrite lookup_insert_eq. congruence. }
    rewrite Hf. subst s1 s2. unfold with_users. simpl.
    now rewrite <- app_assoc.
  - subst d1 d2. unfold email_of, body_field. now rewrite !lookup_insert_ne.
  - subst d1. rewrite lookup_insert_ne by discriminate. apply lookup_insert_eq.
  - subst d2. rewrite lookup_insert_ne by discriminate. apply lookup_insert_eq.
Qed.

(** ** The properties on the sample shop *)

Lemma demo_authenticated_bob id q b :
  authenticated Sample.key Sample.toy_verify Sample.clock
    (Demo.request Demo.as_bob id q b) (Demo.who "bob@x.io").
Proof. exists "Bearer bob@x.io". repeat split. discriminate. Qed.

Lemma demo_authenticated_ann id q b :
  authenticated Sample.key Sample.toy_verify Sample.clock
    (Demo.request Demo.as_ann id q b) (Demo.who "ann@x.io").
Proof. exists "Bearer ann@x.io". repeat split. discriminate. Qed.

Lemma demo_unique_products : unique_ids (products Sample.shop).
Proof.
  unfold unique_ids. simpl. apply NoDup_cons. split; [| apply NoDup_singleton].
  intros Hin. apply list_elem_of_singleton in Hin. discriminate.
Qed.

Lemma demo_unique_users : unique_ids (users Sample.shop).
Proof.
  unfold unique_ids. simpl. apply NoDup_cons. split; [| apply NoDup_singleton].
  intros Hin. apply list_elem_of_singleton in Hin. discriminate.
Qed.

Lemma verifyToken_ignores_scheme_witness :
  let req := Demo.request (Some "Basic bob@x.io") "" None ∅ in
  no_space "bob@x.io" = true /\
  authorization req = Some ("Basic" +:+ " " +:+ "bob@x.io") /\
  verifyToken Sample.key Sample.toy_verify Sample.clock Sample.marker req Sample.shop
  = Sample.marker (with_decoded req (Demo.who "bob@x.io")) Sample.shop.
Proof.
  intros req.
  assert (H1 : no_space "bob@x.io" = true) by reflexivity.
  assert (H2 : authorization req = Some ("Basic" +:+ " " +:+ "bob@x.io")) by reflexivity.
  split; [exact H1 |]. split; [exact H2 |].
  exact (verifyToken_ignores_scheme Sample.key Sample.toy_verify Sample.clock
           "Basic" "bob@x.io" Sample.marker req Sample.shop H1 H2).
Defined.

Lemma issued_token_admits_witness :
  let req := Demo.request None "" (Some "bob@x.io") ∅ in
  let c := {| claim_email := Some "bob@x.io"; iat := now Sample.clock;
              exp := Some (now Sample.clock + 36000) |} in
  query_email req = Some "bob@x.io" /\
  In Sample.bob (users Sample.shop) /\
  Sample.bob !! "email" = Some (VStr "bob@x.io") /\
  Stamp.verify Sample.key (Stamp.sign Sample.key c) = Some c /\
  no_space (Stamp.sign Sample.key c) = true /\
  exists token,
    serve Sample.key Stamp.sign Stamp.verify Sample.toy_ObjectId pcre Sample.clock
      GET_jwt req Sample.shop = (Sample.shop, Sent 200 (AccessToken token)) /\
    forall (later : env) (next : handler) (req' : request) (s' : db),
      authorization req' = Some ("Bearer " +:+ token) ->
      chain Sample.key Stamp.verify later Token next req' s'
      = if now Sample.clock + 36000 <=? now later then forbidden s'
        else next (with_decoded req' c) s'.
Proof.
  intros req c.
  assert (H1 : query_email req = Some "bob@x.io") by reflexivity.
  assert (H2 : In Sample.bob (users Sample.shop)) by (right; left; reflexivity).
  assert (H3 : Sample.bob !! "email" = Some (VStr "bob@x.io")) by reflexivity.
  assert (H4 : Stamp.verify Sample.key (Stamp.sign Sample.key c) = Some c)
    by (vm_compute; reflexivity).
  assert (H5 : no_space (Stamp.sign Sample.key c) = true) by (vm_compute; reflexivity).
  split; [exact H1 |]. split; [exact H2 |]. split; [exact H3 |].
  split; [exact H4 |]. split; [exact H5 |].
  exact (issued_token_admits Sample.key Stamp.sign Stamp.verify Sample.toy_ObjectId pcre
           Sample.clock req Sample.shop "bob@x.io" Sample.bob H1 H2 H3 H4 H5).
Defined.

Lemma open_routes_ignore_header_witness :
  guard_of GET_categories = Open /\
  Demo.app GET_categories (with_authorization (Some "junk") Sample.request0) Sample.shop
  = Demo.app GET_categories Sample.request0 Sample.shop.
Proof.
  assert (H : guard_of GET_categories = Open) by reflexivity.
  split; [exact H |].
  exact (open_routes_ignore_header Sample.key Sample.toy_sign Sample.toy_verify
           Sample.toy_ObjectId pcre Sample.clock GET_categories (Some "junk")
           Sample.request0 Sample.shop H).
Defined.

Lemma get_requests_never_write_witness :
  is_get GET_users_seller = true /\
  (Demo.app GET_users_seller (Demo.request Demo.as_bob "" None ∅) Sample.shop).1
  = Sample.shop.
Proof.
  assert (H : is_get GET_users_seller = true) by reflexivity.
  split; [exact H |].
  exact (get_requests_never_write Sample.key Sample.toy_sign Sample.toy_verify
           Sample.toy_ObjectId pcre Sample.clock GET_users_seller
           (Demo.request Demo.as_bob "" None ∅) Sample.shop H).
Defined.

Lemma writes_are_confined_witness :
  let req := Demo.request Demo.as_bob Sample.id_p (Some "bob@x.io") ∅ in
  writes_users DELETE_products_id = false /\
  users (Demo.app DELETE_products_id req Sample.shop).1 = users Sample.shop.
Proof.
  intros req.
  assert (H : writes_users DELETE_products_id = false) by reflexivity.
  split; [exact H |].
  exact (proj1 (proj2 (writes_are_confined Sample.key Sample.toy_sign Sample.toy_verify
                         Sample.toy_ObjectId pcre Sample.clock DELETE_products_id
                         req Sample.shop)) H).
Defined.

Lemma post_users_registers_witness :
  let req := Demo.request None "" None Demo.cy in
  let id := default (VId (fresh Sample.clock 0)) (body req !! "_id") in
  (forall u, In u (users Sample.shop) -> email_of u <> body_field (body req) "email") /\
  (forall u, In u (users Sample.shop) -> u !! "_id" <> Some id) /\
  exists doc,
    Demo.app POST_users req Sample.shop
    = (with_users Sample.shop (users Sample.shop ++ [doc])%list, Sent 200 (Inserted id)) /\
    doc !! "_id" = Some id /\
    doc !! "userRole"
    = (if truthy (body req !! "userRole") then body req !! "userRole"
       else Some (VStr "buyer")) /\
    (forall k, k <> "_id" -> k <> "userRole" -> doc !! k = body req !! k).
Proof.
  intros req id.
  assert (H1 : forall u, In u (users Sample.shop) ->
                         email_of u <> body_field (body req) "email").
  { intros u [<- | [<- | []]]; vm_compute; discriminate. }
  assert (H2 : forall u, In u (users Sample.shop) -> u !! "_id" <> Some id).
  { intros u [<- | [<- | []]]; vm_compute; discriminate. }
  split; [exact H1 |]. split; [exact H2 |].
  exact (post_users_registers Sample.key Sample.toy_sign Sample.toy_verify
           Sample.toy_ObjectId pcre Sample.clock req Sample.shop H1 H2).
Defined.

Lemma post_users_twice_witness :
  let req := Demo.request None "" None Demo.cy in
  let id := VId (fresh Sample.clock 0) in
  let doc : document := <["_id" := id]> (<["userRole" := VStr "buyer"]> Demo.cy) in
  let s1 := with_users Sample.shop (users Sample.shop ++ [doc])%list in
  Demo.app POST_users req Sample.shop = (s1, Sent 200 (Inserted id)) /\
  Demo.app POST_users req s1 = (s1, Sent 200 (Message "User already exists!")).
Proof.
  intros req id doc s1.
  assert (H : Demo.app POST_users req Sample.shop = (s1, Sent 200 (Inserted id)))
    by reflexivity.
  split; [exact H |].
  exact (post_users_twice Sample.key Sample.toy_sign Sample.toy_verify
           Sample.toy_ObjectId pcre Sample.clock req Sample.shop s1 id Sample.clock H).
Defined.

Lemma register_then_token_witness :
  let req := Demo.request None "" None Demo.cy in
  let id := VId (fresh Sample.clock 0) in
  let doc : document := <["_id" := id]> (<["userRole" := VStr "buyer"]> Demo.cy) in
  let s1 := with_users Sample.shop (users Sample.shop ++ [doc])%list in
  let req' := Demo.request None "" (Some "cy@x.io") ∅ in
  Demo.app POST_users req Sample.shop = (s1, Sent 200 (Inserted id)) /\
  body req !! "email" = Some (VStr "cy@x.io") /\
  query_email req' = Some "cy@x.io" /\
  exists token, Demo.app GET_jwt req' s1 = (s1, Sent 200 (AccessToken token)).
Proof.
  intros req id doc s1 req'.
  assert (H1 : Demo.app POST_users req Sample.shop = (s1, Sent 200 (Inserted id)))
    by reflexivity.
  assert (H2 : body req !! "email" = Some (VStr "cy@x.io")) by reflexivity.
  assert (H3 : query_email req' = Some "cy@x.io") by reflexivity.
  split; [exact H1 |]. split; [exact H2 |]. split; [exact H3 |].
  exact (register_then_token Sample.key Sample.toy_sign Sample.toy_verify
           Sample.toy_ObjectId pcre Sample.clock req Sample.shop s1 id "cy@x.io"
           Sample.clock req' H1 H2 H3).
Defined.

Lemma role_status_agrees_with_role_check_witness :
  let req := {| authorization := Demo.as_bob; params_id := "";
                params_email := "ann@x.io"; query_email := None;
                query_limit := None; body := ∅; decoded := None |} in
  authenticated Sample.key Sample.toy_verify Sample.clock req (Demo.who "bob@x.io") /\
  exists a b,
    Demo.app GET_users_admin_email req Sample.shop = (Sample.shop, Sent 200 (IsAdmin a)) /\
    Demo.app GET_users_seller_email req Sample.shop = (Sample.shop, Sent 200 (IsSeller b)) /\
    forall (req' : request) (d' : claims) (next : handler),
      authenticated Sample.key Sample.toy_verify Sample.clock req' d' ->
      claim_email d' = Some (params_email req) ->
      chain Sample.key Sample.toy_verify Sample.clock TokenAdmin next req' Sample.shop
      = (if a then next (with_decoded req' d') Sample.shop else forbidden Sample.shop) /\
      chain Sample.key Sample.toy_verify Sample.clock TokenSeller next req' Sample.shop
      = (if b then next (with_decoded req' d') Sample.shop else forbidden Sample.shop).
Proof.
  intros req.
  assert (H : authenticated Sample.key Sample.toy_verify Sample.clock req
                (Demo.who "bob@x.io")).
  { exists "Bearer bob@x.io". repeat split. discriminate. }
  split; [exact H |].
  exact (role_status_agrees_with_role_check Sample.key Sample.toy_sign Sample.toy_verify
           Sample.toy_ObjectId pcre Sample.clock req Sample.shop _ H).
Defined.

Lemma delete_reported_removes_witness :
  let req := Demo.request Demo.as_ann Sample.id_p None ∅ in
  authenticated Sample.key Sample.toy_verify Sample.clock req (Demo.who "ann@x.io") /\
  stored_role Sample.shop (claim_email (Demo.who "ann@x.io")) = Some (VStr "admin") /\
  Sample.toy_ObjectId (params_id req) = Some Sample.id_p /\
  unique_ids (products Sample.shop) /\
  In Sample.drill (products Sample.shop) /\
  Sample.drill !! "_id" = Some (VId Sample.id_p) /\
  exists l1 l2,
    products Sample.shop = (l1 ++ Sample.drill :: l2)%list /\
    ~ In Sample.drill (l1 ++ l2)%list /\
    Demo.app DELETE_products_reported_id req Sample.shop
    = (with_products Sample.shop (l1 ++ l2)%list, Sent 200 (Deleted 1)).
Proof.
  intros req.
  pose proof (demo_authenticated_ann Sample.id_p None ∅) as H1.
  assert (H2 : stored_role Sample.shop (claim_email (Demo.who "ann@x.io"))
               = Some (VStr "admin")) by reflexivity.
  assert (H3 : Sample.toy_ObjectId (params_id req) = Some Sample.id_p) by reflexivity.
  pose proof demo_unique_products as H4.
  assert (H5 : In Sample.drill (products Sample.shop)) by (left; reflexivity).
  assert (H6 : Sample.drill !! "_id" = Some (VId Sample.id_p)) by reflexivity.
  split; [exact H1 |]. split; [exact H2 |]. split; [exact H3 |].
  split; [exact H4 |]. split; [exact H5 |]. split; [exact H6 |].
  exact (delete_reported_removes Sample.key Sample.toy_sign Sample.toy_verify
           Sample.toy_ObjectId pcre Sample.clock req Sample.shop _ Sample.id_p
           Sample.drill H1 H2 H3 H4 H5 H6).
Defined.

Lemma put_products_id_writes_witness :
  let req := Demo.request (Some "Bearer zed@x.io") Sample.id_q None
               {[ "price" := VNum 5 ]} in
  authenticated Sample.key Sample.toy_verify Sample.clock req (Demo.who "zed@x.io") /\
  Sample.toy_ObjectId (params_id req) = Some Sample.id_q /\
  body req !! "_id" = None /\
  stored_role Sample.shop (Some "zed@x.io") = None /\
  Demo.app PUT_products_id req Sample.shop
  = (with_products Sample.shop [Sample.drill; body req ∪ Sample.saw],
     Sent 200 (Updated {| matchedCount := 1;
                          modifiedCount := changed Sample.saw (body req ∪ Sample.saw);
                          upsertedCount := 0; upsertedId := None |})).
Proof.
  intros req.
  assert (H1 : authenticated Sample.key Sample.toy_verify Sample.clock req
                 (Demo.who "zed@x.io")).
  { exists "Bearer zed@x.io". repeat split. discriminate. }
  assert (H2 : Sample.toy_ObjectId (params_id req) = Some Sample.id_q) by reflexivity.
  assert (H3 : body req !! "_id" = None) by reflexivity.
  split; [exact H1 |]. split; [exact H2 |]. split; [exact H3 |].
  split; [reflexivity |].
  refine (proj1 (put_products_id_writes Sample.key Sample.toy_sign Sample.toy_verify
                   Sample.toy_ObjectId pcre Sample.clock req Sample.shop _ Sample.id_q
                   H1 H2 H3) [Sample.drill] Sample.saw [] _ _ _).
  - reflexivity.
  - reflexivity.
  - intros x [<- | []]. vm_compute. discriminate.
Defined.

Lemma put_products_id_foreign_id_witness :
  let req := Demo.request Demo.as_bob Sample.id_p None {[ "_id" := VStr "other" ]} in
  authenticated Sample.key Sample.toy_verify Sample.clock req (Demo.who "bob@x.io") /\
  Sample.toy_ObjectId (params_id req) = Some Sample.id_p /\
  body req !! "_id" = Some (VStr "other") /\
  VStr "other" <> VId Sample.id_p /\
  Demo.app PUT_products_id req Sample.shop = (Sample.shop, Crashed).
Proof.
  intros req.
  pose proof (demo_authenticated_bob Sample.id_p None {[ "_id" := VStr "other" ]}) as H1.
  assert (H2 : Sample.toy_ObjectId (params_id req) = Some Sample.id_p) by reflexivity.
  assert (H3 : body req !! "_id" = Some (VStr "other")) by reflexivity.
  assert (H4 : VStr "other" <> VId Sample.id_p) by discriminate.
  split; [exact H1 |]. split; [exact H2 |]. split; [exact H3 |]. split; [exact H4 |].
  exact (put_products_id_foreign_id Sample.key Sample.toy_sign Sample.toy_verify
           Sample.toy_ObjectId pcre Sample.clock req Sample.shop _ Sample.id_p _
           H1 H2 H3 H4).
Defined.

Lemma get_products_lists_by_query_email_witness :
  let req := Demo.request Demo.as_bob "" (Some "ann@x.io") ∅ in
  authenticated Sample.key Sample.toy_verify Sample.clock req (Demo.who "bob@x.io") /\
  stored_role Sample.shop (claim_email (Demo.who "bob@x.io")) = Some (VStr "seller") /\
  query_email req = Some "ann@x.io" /\
  Demo.app GET_products req Sample.shop
  = (Sample.shop,
     Sent 200 (Documents
       (List.filter (fun p => bool_decide (p !! "sellerEmail" = Some (VStr "ann@x.io")))
          (products Sample.shop)))).
Proof.
  intros req.
  pose proof (demo_authenticated_bob "" (Some "ann@x.io") ∅) as H1.
  assert (H2 : stored_role Sample.shop (claim_email (Demo.who "bob@x.io"))
               = Some (VStr "seller")) by reflexivity.
  assert (H3 : query_email req = Some "ann@x.io") by reflexivity.
  split; [exact H1 |]. split; [exact H2 |]. split; [exact H3 |].
  exact (get_products_lists_by_query_email Sample.key Sample.toy_sign Sample.toy_verify
           Sample.toy_ObjectId pcre Sample.clock req Sample.shop _ "ann@x.io" H1 H2 H3).
Defined.

Lemma post_product_then_listed_witness :
  let req := Demo.request Demo.as_bob "" None Demo.drill_for_sale in
  let doc := <["_id" := VId (fresh Sample.clock 0)]> (body req) in
  let s1 := with_products Sample.shop (products Sample.shop ++ [doc])%list in
  authenticated Sample.key Sample.toy_verify Sample.clock req (Demo.who "bob@x.io") /\
  stored_role Sample.shop (claim_email (Demo.who "bob@x.io")) = Some (VStr "seller") /\
  body req !! "_id" = None /\
  body req !! "sellerEmail" = Some (VStr "bob@x.io") /\
  (forall x, In x (products Sample.shop) ->
             x !! "_id" <> Some (VId (fresh Sample.clock 0))) /\
  Demo.app POST_products req Sample.shop
  = (s1, Sent 200 (Inserted (VId (fresh Sample.clock 0)))).
Proof.
  intros req doc s1.
  pose proof (demo_authenticated_bob "" None Demo.drill_for_sale) as H1.
  assert (H2 : stored_role Sample.shop (claim_email (Demo.who "bob@x.io"))
               = Some (VStr "seller")) by reflexivity.
  assert (H3 : body req !! "_id" = None) by reflexivity.
  assert (H4 : body req !! "sellerEmail" = Some (VStr "bob@x.io")) by reflexivity.
  assert (H5 : forall x, In x (products Sample.shop) ->
                         x !! "_id" <> Some (VId (fresh Sample.clock 0))).
  { intros x [<- | [<- | []]]; vm_compute; discriminate. }
  split; [exact H1 |]. split; [exact H2 |]. split; [exact H3 |].
  split; [exact H4 |]. split; [exact H5 |].
  exact (proj1 (post_product_then_listed Sample.key Sample.toy_sign Sample.toy_verify
                  Sample.toy_ObjectId pcre Sample.clock req Sample.shop _ "bob@x.io"
                  H1 H2 H3 H4 H5)).
Defined.

Lemma advertise_own_product_witness :
  let req := Demo.request Demo.as_bob Sample.id_p (Some "bob@x.io") ∅ in
  let p' := <["isAdvertised" := VBool true]> Sample.drill in
  let s1 := with_products Sample.shop ([] ++ p' :: [Sample.saw])%list in
  authenticated Sample.key Sample.toy_verify Sample.clock req (Demo.who "bob@x.io") /\
  stored_role Sample.shop (claim_email (Demo.who "bob@x.io")) = Some (VStr "seller") /\
  Sample.toy_ObjectId (params_id req) = Some Sample.id_p /\
  query_email req = Some "bob@x.io" /\
  products Sample.shop = ([] ++ Sample.drill :: [Sample.saw])%list /\
  Sample.drill !! "_id" = Some (VId Sample.id_p) /\
  Sample.drill !! "sellerEmail" = Some (VStr "bob@x.io") /\
  (forall x : document, In x [] -> x !! "_id" <> Some (VId Sample.id_p)) /\
  Demo.app PUT_products_advertisement_id req Sample.shop
  = (s1, Sent 200 (Updated {| matchedCount := 1;
                              modifiedCount := changed Sample.drill p';
                              upsertedCount := 0; upsertedId := None |})).
Proof.
  intros req p' s1.
  pose proof (demo_authenticated_bob Sample.id_p (Some "bob@x.io") ∅) as H1.
  assert (H2 : stored_role Sample.shop (claim_email (Demo.who "bob@x.io"))
               = Some (VStr "seller")) by reflexivity.
  assert (H3 : Sample.toy_ObjectId (params_id req) = Some Sample.id_p) by reflexivity.
  assert (H4 : query_email req = Some "bob@x.io") by reflexivity.
  assert (H5 : products Sample.shop = ([] ++ Sample.drill :: [Sample.saw])%list)
    by reflexivity.
  assert (H6 : Sample.drill !! "_id" = Some (VId Sample.id_p)) by reflexivity.
  assert (H7 : Sample.drill !! "sellerEmail" = Some (VStr "bob@x.io")) by reflexivity.
  assert (H8 : forall x : document, In x [] -> x !! "_id" <> Some (VId Sample.id_p)).
  { intros x []. }
  split; [exact H1 |]. split; [exact H2 |]. split; [exact H3 |]. split; [exact H4 |].
  split; [exact H5 |]. split; [exact H6 |]. split; [exact H7 |]. split; [exact H8 |].
  exact (proj1 (advertise_own_product Sample.key Sample.toy_sign Sample.toy_verify
                  Sample.toy_ObjectId pcre Sample.clock req Sample.shop _ Sample.id_p
                  "bob@x.io" [] Sample.drill [Sample.saw] H1 H2 H3 H4 H5 H6 H7 H8)).
Defined.

Lemma promotion_takes_effect_witness :
  let req := Demo.request Demo.as_ann Demo.id_c (Some "cy@x.io") Demo.promote in
  let req' := Demo.request (Some "Bearer cy@x.io") "" None ∅ in
  let s1 := (Demo.app PUT_users_seller_id req Demo.town).1 in
  authenticated Sample.key Sample.toy_verify Sample.clock req (Demo.who "ann@x.io") /\
  stored_role Demo.town (claim_email (Demo.who "ann@x.io")) = Some (VStr "admin") /\
  Sample.toy_ObjectId (params_id req) = Some Demo.id_c /\
  body req !! "_id" = None /\
  body req !! "email" = None /\
  body req !! "userRole" = Some (VStr "seller") /\
  users Demo.town = ([Sample.ann; Sample.bob] ++ Demo.cy_record :: [])%list /\
  Demo.cy_record !! "_id" = Some (VId Demo.id_c) /\
  Demo.cy_record !! "email" = Some (VStr "cy@x.io") /\
  (forall x, In x [Sample.ann; Sample.bob] ->
             x !! "_id" <> Some (VId Demo.id_c) /\ email_of x <> VStr "cy@x.io") /\
  authenticated Sample.key Sample.toy_verify Demo.later req' (Demo.who "cy@x.io") /\
  stored_role Demo.town (Some "cy@x.io") = Some (VStr "buyer") /\
  chain Sample.key Sample.toy_verify Demo.later TokenSeller Sample.marker req' s1
  = Sample.marker (with_decoded req' (Demo.who "cy@x.io")) s1.
Proof.
  intros req req' s1.
  pose proof (demo_authenticated_ann Demo.id_c (Some "cy@x.io") Demo.promote) as H1.
  assert (H2 : stored_role Demo.town (claim_email (Demo.who "ann@x.io"))
               = Some (VStr "admin")) by reflexivity.
  assert (H3 : Sample.toy_ObjectId (params_id req) = Some Demo.id_c) by reflexivity.
  assert (H4 : body req !! "_id" = None) by reflexivity.
  assert (H5 : body req !! "email" = None) by reflexivity.
  assert (H6 : body req !! "userRole" = Some (VStr "seller")) by reflexivity.
  assert (H7 : users Demo.town = ([Sample.ann; Sample.bob] ++ Demo.cy_record :: [])%list)
    by reflexivity.
  assert (H8 : Demo.cy_record !! "_id" = Some (VId Demo.id_c)) by reflexivity.
  assert (H9 : Demo.cy_record !! "email" = Some (VStr "cy@x.io")) by reflexivity.
  assert (H10 : forall x, In x [Sample.ann; Sample.bob] ->
                  x !! "_id" <> Some (VId Demo.id_c) /\ email_of x <> VStr "cy@x.io").
  { intros x [<- | [<- | []]]; split; vm_compute; discriminate. }
  assert (H11 : authenticated Sample.key Sample.toy_verify Demo.later req'
                  (Demo.who "cy@x.io")).
  { exists "Bearer cy@x.io". repeat split. discriminate. }
  split; [exact H1 |]. split; [exact H2 |]. split; [exact H3 |]. split; [exact H4 |].
  split; [exact H5 |]. split; [exact H6 |]. split; [exact H7 |]. split; [exact H8 |].
  split; [exact H9 |]. split; [exact H10 |]. split; [exact H11 |].
  split; [reflexivity |].
  exact (promotion_takes_effect Sample.key Sample.toy_sign Sample.toy_verify
           Sample.toy_ObjectId pcre Sample.clock req Demo.town _ Demo.id_c "cy@x.io"
           [Sample.ann; Sample.bob] Demo.cy_record [] H1 H2 H3 H4 H5 H6 H7 H8 H9 H10
           Demo.later req' _ Sample.marker H11 eq_refl).
Defined.

Lemma deletion_revokes_role_witness :
  let req := Demo.request Demo.as_ann Sample.id_b None ∅ in
  let req' := Demo.request Demo.as_bob "" None ∅ in
  let s1 := with_users Sample.shop ([Sample.ann] ++ [])%list in
  authenticated Sample.key Sample.toy_verify Sample.clock req (Demo.who "ann@x.io") /\
  stored_role Sample.shop (claim_email (Demo.who "ann@x.io")) = Some (VStr "admin") /\
  Sample.toy_ObjectId (params_id req) = Some Sample.id_b /\
  users Sample.shop = ([Sample.ann] ++ Sample.bob :: [])%list /\
  Sample.bob !! "_id" = Some (VId Sample.id_b) /\
  (forall x, In x [Sample.ann] -> x !! "_id" <> Some (VId Sample.id_b)) /\
  (forall x, In x ([Sample.ann] ++ [])%list -> email_of x <> VStr "bob@x.io") /\
  Demo.app DELETE_users_id req Sample.shop = (s1, Sent 200 (Deleted 1)) /\
  chain Sample.key Sample.toy_verify Demo.later TokenSeller Sample.marker req' s1
  = forbidden s1.
Proof.
  intros req req' s1.
  pose proof (demo_authenticated_ann Sample.id_b None ∅) as H1.
  assert (H2 : stored_role Sample.shop (claim_email (Demo.who "ann@x.io"))
               = Some (VStr "admin")) by reflexivity.
  assert (H3 : Sample.toy_ObjectId (params_id req) = Some Sample.id_b) by reflexivity.
  assert (H4 : users Sample.shop = ([Sample.ann] ++ Sample.bob :: [])%list) by reflexivity.
  assert (H5 : Sample.bob !! "_id" = Some (VId Sample.id_b)) by reflexivity.
  assert (H6 : forall x, In x [Sample.ann] -> x !! "_id" <> Some (VId Sample.id_b)).
  { intros x [<- | []]. vm_compute. discriminate. }
  assert (H7 : forall x, In x ([Sample.ann] ++ [])%list -> email_of x <> VStr "bob@x.io").
  { intros x [<- | []]. vm_compute. discriminate. }
  assert (H8 : authenticated Sample.key Sample.toy_verify Demo.later req'
                 (Demo.who "bob@x.io")).
  { exists "Bearer bob@x.io". repeat split. discriminate. }
  destruct (deletion_revokes_role Sample.key Sample.toy_sign Sample.toy_verify
              Sample.toy_ObjectId pcre Sample.clock req Sample.shop _ Sample.id_b
              "bob@x.io" [Sample.ann] Sample.bob [] H1 H2 H3 H4 H5 H6 H7)
    as [Hdel Hafter].
  split; [exact H1 |]. split; [exact H2 |]. split; [exact H3 |]. split; [exact H4 |].
  split; [exact H5 |]. split; [exact H6 |]. split; [exact H7 |]. split; [exact Hdel |].
  exact (proj2 (Hafter Demo.later req' _ Sample.marker H8 eq_refl)).
Defined.

Lemma routes_keep_ids_unique_witness :
  let req := Demo.request Demo.as_ann Demo.id_c (Some "zed@x.io") Demo.promote in
  unique_ids (users Sample.shop) /\
  unique_ids (products Sample.shop) /\
  unique_ids (users (Demo.app PUT_users_seller_id req Sample.shop).1) /\
  unique_ids (products (Demo.app PUT_users_seller_id req Sample.shop).1).
Proof.
  intros req.
  split; [exact demo_unique_users |]. split; [exact demo_unique_products |].
  exact (routes_keep_ids_unique Sample.key Sample.toy_sign Sample.toy_verify
           Sample.toy_ObjectId pcre Sample.clock PUT_users_seller_id req Sample.shop
           demo_unique_users demo_unique_products).
Defined.

Lemma invalid_id_never_succeeds_witness :
  let req := Demo.request Demo.as_bob "abc" (Some "bob@x.io") ∅ in
  uses_id DELETE_products_id = true /\
  Sample.toy_ObjectId (params_id req) = None /\
  (Demo.app DELETE_products_id req Sample.shop).1 = Sample.shop /\
  forall p, (Demo.app DELETE_products_id req Sample.shop).2 <> Sent 200 p.
Proof.
  intros req.
  assert (H1 : uses_id DELETE_products_id = true) by reflexivity.
  assert (H2 : Sample.toy_ObjectId (params_id req) = None) by reflexivity.
  split; [exact H1 |]. split; [exact H2 |].
  exact (invalid_id_never_succeeds Sample.key Sample.toy_sign Sample.toy_verify
           Sample.toy_ObjectId pcre Sample.clock DELETE_products_id req Sample.shop
           H1 H2).
Defined.

Lemma get_categories_prefix_witness :
  let req := {| authorization := None; params_id := ""; params_email := "";
                query_email := None; query_limit := Some "5";
                body := ∅; decoded := None |} in
  query_limit req = Some "5" /\ parseInt "5" = Int 5 /\
  Z.of_nat (length (categories Sample.shop)) <= 5 /\
  Demo.app GET_categories req Sample.shop
  = (Sample.shop, Sent 200 (Documents (categories Sample.shop))).
Proof.
  intros req.
  assert (H1 : query_limit req = Some "5") by reflexivity.
  assert (H2 : parseInt "5" = Int 5) by reflexivity.
  assert (H3 : Z.of_nat (length (categories Sample.shop)) <= 5) by (simpl; lia).
  split; [exact H1 |]. split; [exact H2 |]. split; [exact H3 |].
  exact (proj2 (get_categories_prefix Sample.key Sample.toy_sign Sample.toy_verify
                  Sample.toy_ObjectId pcre Sample.clock req Sample.shop) "5" 5 H1 H2 H3).
Defined.

Lemma earlier_post_users_duplicates_witness :
  let req := Demo.request None "" None Demo.cy in
  let d1 := <["_id" := VId (fresh Sample.clock 0)]> (<["isBuyer" := VBool true]> Demo.cy) in
  let d2 := <["_id" := VId (fresh Demo.later 0)]> (<["isBuyer" := VBool true]> Demo.cy) in
  let s1 := with_users Sample.shop (users Sample.shop ++ [d1])%list in
  let s2 := with_users Sample.shop (users Sample.shop ++ [d1; d2])%list in
  body req !! "_id" = None /\
  fresh Sample.clock 0 <> fresh Demo.later 0 /\
  (forall x, In x (users Sample.shop) ->
             x !! "_id" <> Some (VId (fresh Sample.clock 0)) /\
             x !! "_id" <> Some (VId (fresh Demo.later 0))) /\
  Earlier.post_users Sample.clock req Sample.shop
  = (s1, Sent 200 (Inserted (VId (fresh Sample.clock 0)))) /\
  Earlier.post_users Demo.later req s1
  = (s2, Sent 200 (Inserted (VId (fresh Demo.later 0)))) /\
  email_of d1 = email_of d2.
Proof.
  intros req d1 d2 s1 s2.
  assert (H1 : body req !! "_id" = None) by reflexivity.
  assert (H2 : fresh Sample.clock 0 <> fresh Demo.later 0) by discriminate.
  assert (H3 : forall x, In x (users Sample.shop) ->
                 x !! "_id" <> Some (VId (fresh Sample.clock 0)) /\
                 x !! "_id" <> Some (VId (fresh Demo.later 0))).
  { intros x [<- | [<- | []]]; split; vm_compute; discriminate. }
  destruct (earlier_post_users_duplicates Sample.clock Demo.later req Sample.shop
              H1 H2 H3) as (Ha & Hb & Hc & _).
  split; [exact H1 |]. split; [exact H2 |]. split; [exact H3 |].
  split; [exact Ha |]. split; [exact Hb |]. exact Hc.
Defined.


Lemma delete_unknown_id_witness :
  let req := Demo.request Demo.as_ann Demo.id_c None ∅ in
  authenticated Sample.key Sample.toy_verify Sample.clock req (Demo.who "ann@x.io") /\
  stored_role Sample.shop (claim_email (Demo.who "ann@x.io")) = Some (VStr "admin") /\
  Sample.toy_ObjectId (params_id req) = Some Demo.id_c /\
  (forall x, In x (users Sample.shop) -> x !! "_id" <> Some (VId Demo.id_c)) /\
  Demo.app DELETE_users_id req Sample.shop = (Sample.shop, Sent 200 (Deleted 0)).
Proof.
  intros req.
  pose proof (demo_authenticated_ann Demo.id_c None ∅) as H1.
  assert (H2 : stored_role Sample.shop (claim_email (Demo.who "ann@x.io"))
               = Some (VStr "admin")) by reflexivity.
  assert (H3 : Sample.toy_ObjectId (params_id req) = Some Demo.id_c) by reflexivity.
  assert (H4 : forall x, In x (users Sample.shop) -> x !! "_id" <> Some (VId Demo.id_c)).
  { intros x [<- | [<- | []]]; vm_compute; discriminate. }
  split; [exact H1 |]. split; [exact H2 |]. split; [exact H3 |]. split; [exact H4 |].
  exact (proj1 (delete_unknown_id Sample.key Sample.toy_sign Sample.toy_verify
                  Sample.toy_ObjectId pcre Sample.clock req Sample.shop _ Demo.id_c
                  H1 H2 H3) H4).
Defined.
